(** * Travel agent orchestration core: streaming parser, extraction chain,
      agent pipelines and orchestrator

    Shallow embedding of
      - [flight_booking_agent.py]  (cortex_analyst_sql_stream, create_flight_booking_agent),
      - [hotel_booking_agent.py]   (cortex_analyst_sql_stream, extract_cities_with_claude,
                                    create_hotel_booking_agent),
      - [activity_planner_agent.py] (extract_trip_info_with_claude,
                                    create_activity_planner_agent),
      - [streamlit.py]             (module-level agents and [main]).

    Python values are dynamically typed, so the embedding has one type of
    run-time values ([pyval]) and a result type whose second constructor is
    a raised exception.  External collaborators (the HTTP endpoint, the model
    endpoint, the SQL store, the search service, the memory client, the
    decoders [json.loads] and [ast.literal_eval]) are arguments of the
    embedded functions. *)

From Stdlib Require Import String Ascii List ZArith Bool Lia.
From Stdlib Require Import DecimalString.
Import ListNotations.
Local Open Scope string_scope.
Local Open Scope list_scope.

(* ================================================================== *)
(** ** Python run-time values and exceptions *)

Module Py.

(** An exception instance: its class name and [str(e)].  Only subclasses of
    [Exception] are represented (everything an [except Exception] catches). *)
Record exn : Type := Exn { exn_class : string; exn_str : string }.

Inductive result (A : Type) : Type :=
| Ok (a : A)
| Raise (e : exn).
Arguments Ok {A} a.
Arguments Raise {A} e.

Definition bind {A B} (m : result A) (k : A -> result B) : result B :=
  match m with
  | Ok a => k a
  | Raise e => Raise e
  end.

(** [try: body / except Exception: handler] *)
Definition try_except {A} (body : result A) (handler : exn -> result A) : result A :=
  match body with
  | Ok a => Ok a
  | Raise e => handler e
  end.

Fixpoint mapM {A B} (f : A -> result B) (xs : list A) : result (list B) :=
  match xs with
  | [] => Ok []
  | x :: xs' =>
      bind (f x) (fun y => bind (mapM f xs') (fun ys => Ok (y :: ys)))
  end.

(** Values that [json.loads] and [ast.literal_eval] can produce.  [POpaque]
    stands for a value of a type whose structure the program never looks
    into (float, complex, bytes, set); it is recorded by its [repr] text and
    its truth value. *)
#[warnings="-register-all"]
Inductive pyval : Type :=
| PNone
| PBool (b : bool)
| PInt (n : Z)
| PStr (s : string)
| PList (xs : list pyval)
| PTuple (xs : list pyval)
| PDict (kvs : list (pyval * pyval))
| POpaque (repr : string) (truth : bool).

Definition TypeError (m : string) : exn := Exn "TypeError" m.
Definition AttributeError (m : string) : exn := Exn "AttributeError" m.
Definition KeyError (m : string) : exn := Exn "KeyError" m.
Definition IndexError (m : string) : exn := Exn "IndexError" m.

(** *** Strings *)

(** ASCII characters for which [str.isspace] holds. *)
Definition is_space (c : ascii) : bool :=
  let n := nat_of_ascii c in
  (((9 <=? n) && (n <=? 13)) || ((28 <=? n) && (n <=? 32)))%nat.

Fixpoint lstrip (s : string) : string :=
  match s with
  | EmptyString => EmptyString
  | String c r => if is_space c then lstrip r else s
  end.

Fixpoint rstrip (s : string) : string :=
  match s with
  | EmptyString => EmptyString
  | String c r =>
      match rstrip r with
      | EmptyString => if is_space c then EmptyString else String c EmptyString
      | r' => String c r'
      end
  end.

(** [s.strip()] *)
Definition strip (s : string) : string := rstrip (lstrip s).

(** [s.startswith(p)] *)
Definition startswith (p s : string) : bool := String.prefix p s.

(** [s[n:]] *)
Fixpoint drop (n : nat) (s : string) : string :=
  match n, s with
  | O, _ => s
  | S n', String _ r => drop n' r
  | S _, EmptyString => EmptyString
  end.

(** [s[:n]] *)
Fixpoint take (n : nat) (s : string) : string :=
  match n, s with
  | S n', String c r => String c (take n' r)
  | _, _ => EmptyString
  end.

Definition lower_char (c : ascii) : ascii :=
  let n := nat_of_ascii c in
  if ((65 <=? n) && (n <=? 90))%nat then ascii_of_nat (n + 32) else c.

(** [s.lower()] on the ASCII letters. *)
Fixpoint lower (s : string) : string :=
  match s with
  | EmptyString => EmptyString
  | String c r => String (lower_char c) (lower r)
  end.

Definition is_upper (c : ascii) : bool :=
  let n := nat_of_ascii c in ((65 <=? n) && (n <=? 90))%nat.

Definition is_lower (c : ascii) : bool :=
  let n := nat_of_ascii c in ((97 <=? n) && (n <=? 122))%nat.

Definition upper_char (c : ascii) : ascii :=
  if is_lower c then ascii_of_nat (nat_of_ascii c - 32) else c.

(** [s.title()] on the ASCII letters: a letter that follows a letter is
    lowered, any other letter is raised. *)
Fixpoint title_from (after_letter : bool) (s : string) : string :=
  match s with
  | EmptyString => EmptyString
  | String c r =>
      let letter := is_upper c || is_lower c in
      String (if after_letter then lower_char c else upper_char c)
             (title_from letter r)
  end.

Definition title (s : string) : string := title_from false s.

(** The line feed character, written [\n] in the source. *)
Definition nl : string := String (ascii_of_nat 10) EmptyString.

(** [sep.join(xs)] *)
Fixpoint join (sep : string) (xs : list string) : string :=
  match xs with
  | [] => EmptyString
  | [x] => x
  | x :: xs' => x ++ sep ++ join sep xs'
  end.

(** [needle in s] for two strings. *)
Fixpoint substring_in (needle s : string) : bool :=
  String.prefix needle s ||
  match s with
  | EmptyString => false
  | String _ r => substring_in needle r
  end.

(** *** [repr] and [str] *)

Definition str_of_Z (n : Z) : string := NilZero.string_of_int (Z.to_int n).

Fixpoint contains_char (c : ascii) (s : string) : bool :=
  match s with
  | EmptyString => false
  | String d r => Ascii.eqb c d || contains_char c r
  end.

Definition hex_digit (n : nat) : ascii :=
  if (n <? 10)%nat then ascii_of_nat (48 + n) else ascii_of_nat (87 + n).

Fixpoint escape (q : ascii) (s : string) : string :=
  match s with
  | EmptyString => EmptyString
  | String c r =>
      let n := nat_of_ascii c in
      let rest := escape q r in
      if Ascii.eqb c "\" then "\\" ++ rest
      else if Ascii.eqb c q then String "\" (String c rest)
      else if (n =? 10)%nat then "\n" ++ rest
      else if (n =? 13)%nat then "\r" ++ rest
      else if (n =? 9)%nat then "\t" ++ rest
      else if ((n <? 32) || (n =? 127))%nat then
        String "\" (String "x" (String (hex_digit (n / 16))
                                  (String (hex_digit (n mod 16)) rest)))
      else String c rest
  end.

Definition dquote : ascii := ascii_of_nat 34.

(** [repr(s)] of a string: single quotes unless the string has a single
    quote and no double quote. *)
Definition repr_str (s : string) : string :=
  let q : ascii :=
    if contains_char "'" s && negb (contains_char dquote s) then dquote
    else "'"%char in
  String q (escape q s ++ String q EmptyString).

Fixpoint repr (v : pyval) : string :=
  let fix repr_items (xs : list pyval) : list string :=
    match xs with
    | [] => []
    | x :: xs' => repr x :: repr_items xs'
    end in
  let fix repr_pairs (kvs : list (pyval * pyval)) : list string :=
    match kvs with
    | [] => []
    | (k, x) :: kvs' => (repr k ++ ": " ++ repr x)%string :: repr_pairs kvs'
    end in
  match v with
  | PNone => "None"
  | PBool true => "True"
  | PBool false => "False"
  | PInt n => str_of_Z n
  | PStr s => repr_str s
  | PList xs => "[" ++ join ", " (repr_items xs) ++ "]"
  | PTuple [x] => "(" ++ repr x ++ ",)"
  | PTuple xs => "(" ++ join ", " (repr_items xs) ++ ")"
  | PDict kvs => "{" ++ join ", " (repr_pairs kvs) ++ "}"
  | POpaque r _ => r
  end.

(** [str(v)] *)
Definition str (v : pyval) : string :=
  match v with
  | PStr s => s
  | _ => repr v
  end.

(** *** Dynamic operations *)

(** [bool(v)] *)
Definition truthy (v : pyval) : bool :=
  match v with
  | PNone => false
  | PBool b => b
  | PInt n => negb (n =? 0)%Z
  | PStr s => negb (String.eqb s EmptyString)
  | PList xs | PTuple xs => match xs with [] => false | _ => true end
  | PDict kvs => match kvs with [] => false | _ => true end
  | POpaque _ t => t
  end.

(** [v == "s"] for a string literal: only a [str] equals a [str]. *)
Definition eq_str (v : pyval) (s : string) : bool :=
  match v with
  | PStr t => String.eqb t s
  | _ => false
  end.

(** Lookup of a string key in the items of a dict. *)
Fixpoint lookup (k : string) (kvs : list (pyval * pyval)) : option pyval :=
  match kvs with
  | [] => None
  | (k', v) :: kvs' => if eq_str k' k then Some v else lookup k kvs'
  end.

(** [v.get(k, default)]: only dicts have a [get] attribute. *)
Definition get (v : pyval) (k : string) (default : pyval) : result pyval :=
  match v with
  | PDict kvs =>
      match lookup k kvs with
      | Some x => Ok x
      | None => Ok default
      end
  | _ => Raise (AttributeError "object has no attribute 'get'")
  end.

(** [k in v] for a string [k]. *)
Definition contains (k : string) (v : pyval) : result bool :=
  match v with
  | PDict kvs => Ok (match lookup k kvs with Some _ => true | None => false end)
  | PList xs | PTuple xs => Ok (existsb (fun x => eq_str x k) xs)
  | PStr s => Ok (substring_in k s)
  | _ => Raise (TypeError "argument is not iterable")
  end.

(** [v[k]] for a string [k]. *)
Definition getitem (v : pyval) (k : string) : result pyval :=
  match v with
  | PDict kvs =>
      match lookup k kvs with
      | Some x => Ok x
      | None => Raise (KeyError (repr_str k))
      end
  | PList _ | PTuple _ | PStr _ =>
      Raise (TypeError "indices must be integers or slices, not str")
  | _ => Raise (TypeError "object is not subscriptable")
  end.

(** [v[0]] *)
Definition getitem0 (v : pyval) : result pyval :=
  match v with
  | PList (x :: _) | PTuple (x :: _) => Ok x
  | PList [] | PTuple [] => Raise (IndexError "index out of range")
  | PStr (String c _) => Ok (PStr (String c EmptyString))
  | PStr EmptyString => Raise (IndexError "string index out of range")
  | PDict kvs =>
      let fix find (kvs : list (pyval * pyval)) : result pyval :=
        match kvs with
        | [] => Raise (KeyError "0")
        | (PInt 0, x) :: _ => Ok x
        | (PBool false, x) :: _ => Ok x
        | _ :: kvs' => find kvs'
        end in
      find kvs
  | _ => Raise (TypeError "object is not subscriptable")
  end.

Fixpoint chars (s : string) : list pyval :=
  match s with
  | EmptyString => []
  | String c r => PStr (String c EmptyString) :: chars r
  end.

(** The items a [for x in v] loop visits. *)
Definition iter (v : pyval) : result (list pyval) :=
  match v with
  | PList xs | PTuple xs => Ok xs
  | PDict kvs => Ok (map fst kvs)
  | PStr s => Ok (chars s)
  | _ => Raise (TypeError "object is not iterable")
  end.

(** [v.strip()]: only [str] has the attribute among the values here
    ([bytes] is opaque and is not given one). *)
Definition strip_method (v : pyval) : result string :=
  match v with
  | PStr s => Ok (strip s)
  | _ => Raise (AttributeError "object has no attribute 'strip'")
  end.

(** [v.title()] *)
Definition title_method (v : pyval) : result string :=
  match v with
  | PStr s => Ok (title s)
  | _ => Raise (AttributeError "object has no attribute 'title'")
  end.

(** [sep.join(vs)]: every item must be a [str]. *)
Definition join_method (sep : string) (vs : list pyval) : result string :=
  bind (mapM (fun v => match v with
                       | PStr s => Ok s
                       | _ => Raise (TypeError "sequence item: expected str instance")
                       end) vs)
       (fun ss => Ok (join sep ss)).

(** [s.replace(old, new)] for a non-empty [old]: the occurrences are
    replaced from the left, without overlap; [skip] counts the characters
    of an occurrence still to pass over. *)
Fixpoint replace_from (skip : nat) (old new s : string) : string :=
  match s with
  | EmptyString => EmptyString
  | String c r =>
      match skip with
      | S k => replace_from k old new r
      | O =>
          if String.prefix old s then
            (new ++ replace_from (String.length old - 1) old new r)%string
          else String c (replace_from 0 old new r)
      end
  end.

Definition replace (old new s : string) : string := replace_from 0 old new s.

(** The text has ASCII characters only.  On such a text [strip], [lower]
    and [title] are what [str.strip], [str.lower] and [str.title] do; on
    other characters the methods of [str] follow Unicode, which these
    functions do not. *)
Fixpoint is_ascii (s : string) : bool :=
  match s with
  | EmptyString => true
  | String c r => (nat_of_ascii c <? 128)%nat && is_ascii r
  end.

(** The value is of a type without a [strip] attribute: [NoneType], [bool],
    [int], [list], [tuple] or [dict]. *)
Definition lacks_strip (v : pyval) : bool :=
  match v with
  | PNone | PBool _ | PInt _ | PList _ | PTuple _ | PDict _ => true
  | PStr _ | POpaque _ _ => false
  end.

(** The value is built from [None], booleans, integers within the default
    limit of 4300 digits for the conversion to text, ASCII strings, and
    lists, tuples and dicts of such values.  On these values [iter],
    [strip_method], [lower], [repr] and [str] are what the interpreter
    does; a [bytes] value or a set can be iterated and a [bytes] value can be
    stripped, which [POpaque] does not show. *)
Fixpoint plain (v : pyval) : bool :=
  match v with
  | PNone | PBool _ => true
  | PInt n => (Z.abs n <? 10 ^ 4300)%Z
  | PStr s => is_ascii s
  | PList xs | PTuple xs => forallb plain xs
  | PDict kvs => forallb (fun kv => plain (fst kv) && plain (snd kv)) kvs
  | POpaque _ _ => false
  end.

(** [s + v] for a [str] on the left. *)
Definition str_add (s : string) (v : pyval) : result string :=
  match v with
  | PStr t => Ok (s ++ t)%string
  | _ => Raise (TypeError "can only concatenate str to str")
  end.

End Py.

Notation "x <- m ;; k" := (Py.bind m (fun x => k))
  (at level 61, m at next level, right associativity).

(* ================================================================== *)
(** ** External libraries

    [json.loads], [ast.literal_eval] and the pandas operations the agents
    use are not code of this repository; the embedded functions take them
    through this interface.  [Raise] is the exception the library call
    raises. *)

Class Libraries : Type := {
  json_loads : string -> Py.result Py.pyval;
  literal_eval : string -> Py.result Py.pyval;
  DataFrame : Type;
  (** [df.empty] *)
  df_empty : DataFrame -> bool;
  (** [pd.DataFrame()] *)
  pd_DataFrame : DataFrame;
  (** [pd.concat(dfs, ignore_index=True)] *)
  pd_concat : list DataFrame -> DataFrame;
  (** [df[col] = value], as a new table *)
  df_setitem : DataFrame -> string -> string -> DataFrame
}.

(* ================================================================== *)
(** ** Streaming event parser: [cortex_analyst_sql_stream]

    The two copies (flight_booking_agent.py:103-155 and
    hotel_booking_agent.py:25-75) have the same loop; the flight copy also
    prints the token prefix before the request. *)

Module Stream.
Import Py.

(** What a generator does that its environment can see, in order. *)
Inductive action : Type :=
| Yield (v : pyval)
| Print (s : string).

(** The body of the POST request that varies between callers. *)
Record request : Type := Request {
  response_instruction : string;
  semantic_model_file : string;
  user_text : string
}.

(** What [requests.post(..., stream=True)] and [resp.iter_lines] deliver:
    the lines received, then either the end of the body ([None]) or the
    exception the transport raised while the next line was awaited
    ([requests.post] itself raising is the case of no line at all). *)
Record response : Type := Response {
  lines : list string;
  failure : option exn
}.

Inductive flow : Type := Continue | Break.

Record loop_state : Type := LoopState {
  trace : list action;
  prev_event : option string;
  broke : bool;
  unread : list string
}.

Definition opt_eqb (o : option string) (s : string) : bool :=
  match o with
  | Some t => String.eqb t s
  | None => false
  end.

Section Parser.
Context {L : Libraries}.

(** One iteration of [for line in resp.iter_lines(decode_unicode=True)]. *)
Definition loop_body (prev : option string) (line : string)
  : list action * option string * flow :=
  if String.eqb (strip line) EmptyString then ([], prev, Continue)
  else if startswith "event:" line then ([], Some (strip line), Continue)
  else if startswith "data:" line then
    if opt_eqb prev "event: message.delta" then
      let data_json := drop (String.length "data: ") line in
      match json_loads data_json with
      | Ok data => ([Yield data], prev, Continue)
      | Raise e => ([Print ("JSON decode error: " ++ exn_str e)], prev, Continue)
      end
    else if opt_eqb prev "event: error" then
      ([Print ("API error event: " ++ line)], prev, Continue)
    else ([], prev, Continue)
  else if startswith "event: done" line then ([], prev, Break)
  else ([], prev, Continue).

(** The [for] loop from a given [prev_event]. *)
Fixpoint iter_lines_loop (prev : option string) (ls : list string) : loop_state :=
  match ls with
  | [] => LoopState [] prev false []
  | line :: rest =>
      match loop_body prev line with
      | (acts, prev', Break) => LoopState acts prev' true rest
      | (acts, prev', Continue) =>
          let st := iter_lines_loop prev' rest in
          LoopState (acts ++ trace st) (prev_event st) (broke st) (unread st)
      end
  end.

(** The dict yielded by the [except Exception as e] clause. *)
Definition error_dict (e : exn) : pyval :=
  PDict [(PStr "error", PStr ("Cortex Analyst streaming exception: " ++ exn_str e))].

(** [try: with requests.post(...) as resp: <loop> / except Exception as e:
    yield {"error": ...}] on a given response. *)
Definition stream_response (resp : response) : list action :=
  let st := iter_lines_loop None (lines resp) in
  trace st ++
  (if broke st then []
   else match failure resp with
        | Some e => [Yield (error_dict e)]
        | None => []
        end).

Fixpoint yields (acts : list action) : list pyval :=
  match acts with
  | [] => []
  | Yield v :: acts' => v :: yields acts'
  | Print _ :: acts' => yields acts'
  end.

End Parser.
End Stream.

(* ================================================================== *)
(** ** The model endpoint *)

Module Bedrock.
Import Py.

(** The request body of [bedrock.invoke_model] and the client's region. *)
Record model_request : Type := ModelRequest {
  region : string;
  max_tokens : Z;
  temperature : string;
  system : string;
  user_message : string
}.

(** [result["content"][0]["text"].strip()] if [result.get("content")] is
    true, else the empty string, on the decoded response body. *)
Definition response_text (result : pyval) : Py.result string :=
  c <- get result "content" PNone ;;
  if truthy c then
    c' <- getitem result "content" ;;
    x <- getitem0 c' ;;
    t <- getitem x "text" ;;
    strip_method t
  else Ok EmptyString.

End Bedrock.

(* ================================================================== *)
(** ** The environment of one agent call *)

Module Env.
Import Py.

Section WithLibraries.
Context {L : Libraries}.

(** The object [my_service.search(...)] returns, by what the agent tries on
    it: [resp.to_df()] and [pd.DataFrame(resp.results)] where the attribute
    exists ([None]: no such attribute), and [pd.DataFrame(resp)]. *)
Record search_response : Type := SearchResponse {
  to_df : option (Py.result DataFrame);
  results_frame : option (Py.result DataFrame);
  as_frame : Py.result DataFrame
}.

(** The external collaborators and configuration one agent call sees. *)
Record World : Type := {
  (** [os.getenv("CORTEX_AUTH_TOKEN")] *)
  auth_token : string;
  (** the streaming endpoint *)
  post : Stream.request -> Stream.response;
  (** [snowflake.connector.connect], [execute] and [fetch_pandas_all] *)
  snowflake : pyval -> Py.result DataFrame;
  (** [df.to_markdown(index=False)] *)
  to_markdown : DataFrame -> Py.result string;
  (** [boto3.client], [invoke_model] and the decoding of its body *)
  invoke_model : Bedrock.model_request -> Py.result pyval;
  (** [memory_client.get_last_k_turns(memory_id, actor_id, session_id, k)] *)
  get_last_k_turns : pyval -> string -> string -> Z -> Py.result pyval;
  (** [Session.builder.configs(...).create()] and the service lookup *)
  create_session : Py.result unit;
  (** [my_service.search(query, columns, limit)] *)
  search : string -> list string -> Z -> Py.result search_response
}.

End WithLibraries.
End Env.

(* ================================================================== *)
(** ** Agent pipeline of the flight and hotel agents

    [create_flight_booking_agent] (flight_booking_agent.py:207-239) and
    [create_hotel_booking_agent] (hotel_booking_agent.py:164-193) have the
    same body up to the stream and ranking functions they call. *)

Module Pipeline.
Import Py Env.

Section WithLibraries.
Context {L : Libraries}.

(** The 5-tuple an agent returns. *)
Record agent_result : Type := AgentResult {
  r_streamed_text : string;
  r_interpretation : pyval;
  r_sql_code : pyval;
  r_best_option : option string;
  r_df : option DataFrame
}.

(** The local variables of the streaming loop. *)
Record locals : Type := Locals {
  streamed_text : string;
  interpretation : pyval;
  sql_code : pyval
}.

Definition init : locals := Locals EmptyString PNone PNone.

(** [return streamed_text, interpretation, None, None, None] *)
Definition partial (a : locals) : agent_result :=
  AgentResult (streamed_text a) (interpretation a) PNone None None.

Fixpoint foldM {A : Type} (f : locals -> A -> Py.result locals)
  (a : locals) (xs : list A) : Py.result locals :=
  match xs with
  | [] => Ok a
  | x :: xs' => a' <- f a x ;; foldM f a' xs'
  end.

(** Body of [for result in tool_results.get("content", [])]. *)
Definition on_result (a : locals) (result : pyval) : Py.result locals :=
  ty <- get result "type" PNone ;;
  if eq_str ty "json" then
    json_data <- get result "json" (PDict []) ;;
    has_text <- contains "text" json_data ;;
    a1 <- (if has_text : bool then
             t <- getitem json_data "text" ;;
             Ok (Locals (streamed_text a) t (sql_code a))
           else Ok a) ;;
    has_sql <- contains "sql" json_data ;;
    if has_sql : bool then
      q <- getitem json_data "sql" ;;
      Ok (Locals (streamed_text a1) (interpretation a1) q)
    else Ok a1
  else Ok a.

(** Body of [for content_item in content]. *)
Definition on_item (a : locals) (content_item : pyval) : Py.result locals :=
  ty <- get content_item "type" PNone ;;
  if eq_str ty "text" then
    t <- get content_item "text" (PStr EmptyString) ;;
    s <- str_add (streamed_text a) t ;;
    Ok (Locals s (interpretation a) (sql_code a))
  else
    ty' <- get content_item "type" PNone ;;
    if eq_str ty' "tool_results" then
      tool_results <- get content_item "tool_results" (PDict []) ;;
      c <- get tool_results "content" (PList []) ;;
      results <- iter c ;;
      foldM on_result a results
    else Ok a.

(** Body of [for data in cortex_analyst_sql_stream(query)]: [inl] is the
    early [return], [inr] the locals after the iteration. *)
Definition on_data (a : locals) (data : pyval)
  : Py.result (agent_result + locals) :=
  is_error <- contains "error" data ;;
  if is_error : bool then Ok (inl (partial a))
  else
    delta <- get data "delta" (PDict []) ;;
    content <- get delta "content" (PList []) ;;
    items <- iter content ;;
    a' <- foldM on_item a items ;;
    Ok (inr a').

(** The streaming loop over what the generator yields. *)
Fixpoint drain (a : locals) (ds : list pyval) : Py.result (agent_result + locals) :=
  match ds with
  | [] => Ok (inr a)
  | data :: ds' =>
      r <- on_data a data ;;
      match r with
      | inl res => Ok (inl res)
      | inr a' => drain a' ds'
      end
  end.

(** [run_sql_on_snowflake]: any exception becomes [None]. *)
Definition run_sql_on_snowflake (W : World) (sql : pyval) : Py.result (option DataFrame) :=
  try_except (df <- snowflake W sql ;; Ok (Some df)) (fun _ => Ok None).

Section Agent.
(** the module's [cortex_analyst_sql_stream] and [get_best_*_from_claude] *)
Variable cortex_analyst_sql_stream : World -> string -> list Stream.action.
Variable get_best_from_claude : World -> DataFrame -> string -> string -> Py.result string.

(** [agent(query)] of the closure made with [region]. *)
Definition agent (W : World) (region : string) (query : string) : Py.result agent_result :=
  r <- drain init (Stream.yields (cortex_analyst_sql_stream W query)) ;;
  match r with
  | inl res => Ok res
  | inr a =>
      if negb (truthy (sql_code a)) then Ok (partial a)
      else
        df <- run_sql_on_snowflake W (sql_code a) ;;
        best_option <-
          match df with
          | Some d =>
              if negb (df_empty d) then
                b <- get_best_from_claude W d query region ;; Ok (Some b)
              else Ok None
          | None => Ok None
          end ;;
        Ok (AgentResult (streamed_text a) (interpretation a) (sql_code a) best_option df)
  end.

End Agent.
End WithLibraries.
End Pipeline.

(* ================================================================== *)
(** ** A sub-agent: the closure a factory returns

    The factories take [memory_client, memory_id, actor_id, session_id,
    region]; the closure keeps them.  [call] is the closure applied to a
    query in a given environment. *)

Record sub_agent {L : Libraries} (R : Type) : Type := SubAgent {
  memory_id : Py.pyval;
  actor_id : string;
  session_id : string;
  agent_region : string;
  call : Env.World -> string -> Py.result R
}.
Arguments SubAgent {L R}.
Arguments memory_id {L R}.
Arguments actor_id {L R}.
Arguments session_id {L R}.
Arguments agent_region {L R}.
Arguments call {L R}.

(* ================================================================== *)
(** ** flight_booking_agent.py *)

Module Flight.
Import Py Env Stream Bedrock Pipeline.
Local Open Scope string_scope.

Section WithLibraries.
Context {L : Libraries}.

Definition SEMANTIC_MODELS : string := "@TRAVEL_DB.PUBLIC.DOCS/travel_data.yaml".

Definition cortex_analyst_sql_stream (W : World) (query : string) : list action :=
  Print ("Using Cortex token (first 10 chars): " ++ take 10 (auth_token W)) ::
  stream_response
    (post W (Request "Generate SQL for flight booking queries." SEMANTIC_MODELS query)).

Definition get_best_flight_from_claude (W : World) (table_df : DataFrame)
  (user_query : string) (region : string) : Py.result string :=
  table_str <- to_markdown W table_df ;;
  let system_prompt :=
    "You are a travel assistant. Given a table of flight options and a user query, " ++
    "return the best 3 flight options as english text with all details" in
  let user_message :=
    "The user asked: " ++ user_query ++ nl ++
    "Here are the available flight options in a table:" ++ nl ++ nl ++
    table_str in
  result <- invoke_model W (ModelRequest region 1024 "0.2" system_prompt user_message) ;;
  response_text result.

Definition create_flight_booking_agent (memory_id : pyval)
  (actor_id session_id region : string) : sub_agent agent_result :=
  SubAgent memory_id actor_id session_id region
    (fun W query =>
       agent cortex_analyst_sql_stream get_best_flight_from_claude W region query).

End WithLibraries.
End Flight.

(* ================================================================== *)
(** ** hotel_booking_agent.py *)

Module Hotel.
Import Py Env Stream Bedrock Pipeline.
Local Open Scope string_scope.

Section WithLibraries.
Context {L : Libraries}.

Definition SEMANTIC_MODELS : string := "@TRAVEL_DB.PUBLIC.DOCS/hotel_booking.yaml".

Definition cortex_analyst_sql_stream (W : World) (query : string) : list action :=
  stream_response
    (post W (Request "Generate SQL for hotel booking queries." SEMANTIC_MODELS query)).

Definition get_best_hotel_from_claude (W : World) (table_df : DataFrame)
  (user_query : string) (region : string) : Py.result string :=
  table_str <- to_markdown W table_df ;;
  let system_prompt :=
    "You are a travel assistant. Given a table of hotel options and a user query, " ++
    "return the best 3 flight options as english text with all details" in
  let user_message :=
    "The user asked: " ++ user_query ++ nl ++
    "Here are the available hotel options in a table:" ++ nl ++ nl ++
    table_str in
  result <- invoke_model W (ModelRequest region 512 "0.2" system_prompt user_message) ;;
  response_text result.

(** hotel_booking_agent.py:153-161, on the stripped model text. *)
Definition cities_of_text (text : string) : Py.result (list string) :=
  returned <-
    try_except
      (cities <- literal_eval text ;;
       match cities with
       | PList xs => Ok (Some (map str xs))
       | _ => Ok None
       end)
      (fun _ => Ok None) ;;
  match returned with
  | Some cs => Ok cs
  | None => Ok []
  end.

Definition extract_cities_with_claude (W : World) (user_query : string)
  (region : string) : Py.result (list string) :=
  let system_prompt :=
    "You are a travel assistant. Given a user travel query, extract the destination cities. Skip the source city " ++
    "Return only a valid Python list of city names, e.g. ['Mumbai', 'Pune']. Do not explain." in
  let user_message :=
    "Extract all destination cities from this travel query: " ++
    String dquote user_query ++ String dquote "." in
  result <- invoke_model W (ModelRequest region 128 "0.0" system_prompt user_message) ;;
  text <- response_text result ;;
  cities_of_text text.

Definition create_hotel_booking_agent (memory_id : pyval)
  (actor_id session_id region : string) : sub_agent agent_result :=
  SubAgent memory_id actor_id session_id region
    (fun W query =>
       agent cortex_analyst_sql_stream get_best_hotel_from_claude W region query).

End WithLibraries.
End Hotel.

(* ================================================================== *)
(** ** activity_planner_agent.py *)

Module Activity.
Import Py Env Bedrock.
Local Open Scope string_scope.

Section WithLibraries.
Context {L : Libraries}.

Definition CORTEX_SEARCH_COLUMNS : list string :=
  ["CHUNK"; "CATEGORY"; "CHUNK_INDEX"; "RELATIVE_PATH"].

(** The 4-tuple the activity agent returns. *)
Record activity_result : Type := ActivityResult {
  a_streamed_text : string;
  a_interpretation : string;
  a_plan_md : string;
  a_activities_df : DataFrame
}.

Fixpoint foldM_str {A : Type} (f : string -> A -> Py.result string)
  (acc : string) (xs : list A) : Py.result string :=
  match xs with
  | [] => Ok acc
  | x :: xs' => acc' <- f acc x ;; foldM_str f acc' xs'
  end.

Definition get_recent_context (W : World) (memory_id : pyval)
  (actor_id session_id : string) (k : Z) : Py.result string :=
  recent_turns <- get_last_k_turns W memory_id actor_id session_id k ;;
  turns <- iter recent_turns ;;
  foldM_str
    (fun context turn =>
       messages <- iter turn ;;
       foldM_str
         (fun context message =>
            role <- getitem message "role" ;;
            c <- getitem message "content" ;;
            content <- getitem c "text" ;;
            r <- title_method role ;;
            Ok (context ++ (r ++ ": " ++ str content ++ nl)))
         context messages)
    EmptyString turns.

Definition default_trip_info : pyval :=
  PDict [(PStr "source_city", PStr EmptyString);
         (PStr "dest_cities", PList []);
         (PStr "duration", PNone)].

(** activity_planner_agent.py:66-72, on the stripped model text. *)
Definition trip_info_of_text (text : string) : Py.result pyval :=
  returned <-
    try_except
      (info <- literal_eval text ;;
       match info with
       | PDict _ => Ok (Some info)
       | _ => Ok None
       end)
      (fun _ => Ok None) ;;
  match returned with
  | Some info => Ok info
  | None => Ok default_trip_info
  end.

Definition extract_trip_info_with_claude (W : World) (user_query : string)
  (region : string) : Py.result pyval :=
  let system_prompt :=
    "You are a travel assistant. Given a user travel query, extract the following as a Python dict: " ++
    "'source_city': the city the trip starts from, 'dest_cities': a list of destination cities (excluding the source), " ++
    "'duration': the number of days for the trip (as an integer, or None if not specified). " ++
    "Return only a valid Python dict, e.g. {'dest_cities': ['Mumbai', 'Pune'], 'duration': 15 days}. Do not explain." in
  let user_message :=
    "Extract the source city, destination cities, and trip duration from this travel query: " ++
    String dquote user_query ++ String dquote "." in
  result <- invoke_model W (ModelRequest region 1024 "0.0" system_prompt user_message) ;;
  text <- response_text result ;;
  trip_info_of_text text.

Definition get_daywise_plan_from_claude (W : World) (activities_df : DataFrame)
  (user_query : string) (source_city : pyval) (dest_cities : list pyval)
  (region : string) : Py.result string :=
  table_str <- to_markdown W activities_df ;;
  let system_prompt :=
    "You are a travel assistant. Given a table of activities and a user query, create a detailed day-wise travel plan. " ++
    "The trip starts in the source city and visits only the destination cities. " ++
    "Do NOT include the source city plan. " ++
    "Create a detailed plan for each day, suggest the  activities, and present the plan as detailed as possible." in
  joined <- join_method ", " dest_cities ;;
  let user_message :=
    "The user asked: " ++ user_query ++ nl ++
    "Source city: " ++ str source_city ++ nl ++
    "Destination cities: " ++ joined ++ nl ++
    "Here are the available activities in a table:" ++ nl ++ nl ++
    table_str in
  result <- invoke_model W (ModelRequest region 1024 "0.2" system_prompt user_message) ;;
  response_text result.

(** [[city for city in dest_cities
      if city.strip().lower() != source_city.strip().lower()]] *)
Fixpoint other_cities (source_city : pyval) (cities : list pyval)
  : Py.result (list pyval) :=
  match cities with
  | [] => Ok []
  | city :: rest =>
      c <- strip_method city ;;
      s <- strip_method source_city ;;
      rest' <- other_cities source_city rest ;;
      if negb (String.eqb (lower c) (lower s)) then Ok (city :: rest')
      else Ok rest'
  end.

(** The three conversions tried on a search response, in order; a failed
    conversion leaves [df] at [None]. *)
Definition frame_of_response (resp : search_response) : option DataFrame :=
  let df :=
    match to_df resp with
    | Some (Ok d) => Some d
    | _ => None
    end in
  let df :=
    match df, results_frame resp with
    | None, Some (Ok d) => Some d
    | _, _ => df
    end in
  match df with
  | None =>
      match as_frame resp with
      | Ok d => Some d
      | Raise _ => None
      end
  | Some _ => df
  end.

(** Body of [for city in dest_cities]: the table appended to
    [all_activities], if any. *)
Definition search_city (W : World) (duration : pyval) (limit : Z) (city : pyval)
  : Py.result (option DataFrame) :=
  let cortex_query :=
    "Find activities and experiences for a traveler in " ++ str city ++
    ". Trip duration: " ++ str duration ++ " days." in
  resp <- search W cortex_query CORTEX_SEARCH_COLUMNS limit ;;
  match frame_of_response resp with
  | Some df =>
      if negb (df_empty df) then Ok (Some (df_setitem df "CITY" (str city)))
      else Ok None
  | None => Ok None
  end.

Fixpoint search_all (W : World) (duration : pyval) (limit : Z) (cities : list pyval)
  : Py.result (list DataFrame) :=
  match cities with
  | [] => Ok []
  | city :: rest =>
      r <- search_city W duration limit city ;;
      rest' <- search_all W duration limit rest ;;
      Ok (match r with Some df => df :: rest' | None => rest' end)
  end.

Definition NO_ACTIVITIES : string := "No activities found.".

(** [agent(user_query, limit)] of the closure. *)
Definition agent (memory_id : pyval) (actor_id session_id region : string)
  (W : World) (user_query : string) (limit : Z) : Py.result activity_result :=
  context <- get_recent_context W memory_id actor_id session_id 5 ;;
  trip_info <- extract_trip_info_with_claude W user_query region ;;
  source_city <- get trip_info "source_city" (PStr EmptyString) ;;
  dest_cities <- get trip_info "dest_cities" (PList []) ;;
  duration <- get trip_info "duration" PNone ;;
  cities <- iter dest_cities ;;
  dest_cities <- other_cities source_city cities ;;
  _ <- create_session W ;;
  all_activities <- search_all W duration limit dest_cities ;;
  let activities_df :=
    match all_activities with
    | [] => pd_DataFrame
    | _ => pd_concat all_activities
    end in
  plan_md <-
    (if negb (df_empty activities_df) then
       get_daywise_plan_from_claude W activities_df user_query source_city
         dest_cities region
     else Ok NO_ACTIVITIES) ;;
  Ok (ActivityResult EmptyString EmptyString plan_md activities_df).

Definition create_activity_planner_agent (memory_id : pyval)
  (actor_id session_id region : string) : sub_agent activity_result :=
  SubAgent memory_id actor_id session_id region
    (fun W user_query => agent memory_id actor_id session_id region W user_query 10).

End WithLibraries.
End Activity.

(* ================================================================== *)
(** ** The thread pool

    [executor.submit(f, arg)] gives a future; a worker thread runs it at
    some later point, in an order the program does not control;
    [future.result()] waits for it.  The submitted callables here read only
    their argument and their environment, so a future is pending with its
    argument or done with the value of the call, and a schedule is the
    order in which the workers pick the futures up. *)

Module Executor.

Inductive future (A R : Type) : Type :=
| Pending (arg : A)
| Done (r : R).
Arguments Pending {A R} arg.
Arguments Done {A R} r.

Section Pool.
Context {A R : Type}.
Variable f : A -> R.

(** [executor.submit(f, arg)] for each argument in turn. *)
Definition submit_all (args : list A) : list (future A R) := map Pending args.

Definition run (fu : future A R) : future A R :=
  match fu with
  | Pending a => Done (f a)
  | Done r => Done r
  end.

(** A worker runs the future in slot [k]. *)
Fixpoint run_at (k : nat) (pool : list (future A R)) : list (future A R) :=
  match pool, k with
  | [], _ => []
  | fu :: rest, O => run fu :: rest
  | fu :: rest, S k' => fu :: run_at k' rest
  end.

Definition run_schedule (sched : list nat) (pool : list (future A R))
  : list (future A R) :=
  fold_left (fun p k => run_at k p) sched pool.

(** The values of [future.result()] in slot order, once every future is
    done. *)
Fixpoint results (pool : list (future A R)) : option (list R) :=
  match pool with
  | [] => Some []
  | Done r :: rest =>
      match results rest with
      | Some rs => Some (r :: rs)
      | None => None
      end
  | Pending _ :: _ => None
  end.




End Pool.
End Executor.

(* ================================================================== *)
(** ** streamlit.py: the orchestrator *)

Module Streamlit.
Import Py Env Pipeline.
Local Open Scope string_scope.

Section WithLibraries.
Context {L : Libraries}.
(** [MEMORY_ID] comes from the memory service, [REGION] from the process
    environment. *)
Variable MEMORY_ID : pyval.
Variable REGION : string.

Definition ACTOR_ID : string := "flight_user_001".
Definition SESSION_ID : string := "flight_session_001".

Definition flight_agent : sub_agent agent_result :=
  Flight.create_flight_booking_agent MEMORY_ID ACTOR_ID SESSION_ID REGION.
Definition hotel_agent : sub_agent agent_result :=
  Hotel.create_hotel_booking_agent MEMORY_ID ACTOR_ID SESSION_ID REGION.
Definition activity_agent : sub_agent Activity.activity_result :=
  Activity.create_activity_planner_agent MEMORY_ID ACTOR_ID SESSION_ID REGION.

(** [f"Find hotels in {city}"] *)
Definition hotel_query (city : string) : string := "Find hotels in " ++ city.

Inductive domain : Type := FlightDomain | HotelDomain | ActivityDomain.

(** One [executor.submit] of [main]: the domain and scope of the task, the
    identity of the sub-agent that is submitted, and the query it gets. *)
Record task : Type := Task {
  task_domain : domain;
  scope_key : option string;
  task_actor_id : string;
  task_session_id : string;
  task_query : string
}.

(** The submits of [main] (streamlit.py:44-47) for the extracted cities. *)
Definition dispatched (travel_query : string) (hotel_cities : list string)
  : list task :=
  (Task FlightDomain None (actor_id flight_agent) (session_id flight_agent)
     travel_query
   :: map (fun city =>
             Task HotelDomain (Some city) (actor_id hotel_agent)
               (session_id hotel_agent) (hotel_query city))
          hotel_cities
   ++ [Task ActivityDomain None (actor_id activity_agent)
         (session_id activity_agent) travel_query])%list.

(** Each call made for one request has its own environment: the calls of
    the main thread, of the flight task, of the hotel task in slot [j], and
    of the activity task. *)
Record Worlds : Type := {
  main_world : World;
  flight_world : World;
  hotel_world : nat -> World;
  activity_world : World
}.

(** The hotel task in slot [j]. *)
Definition hotel_task (Ws : Worlds) (job : nat * string) : Py.result agent_result :=
  call hotel_agent (hotel_world Ws (fst job)) (hotel_query (snd job)).

Fixpoint number {A : Type} (j : nat) (xs : list A) : list (nat * A) :=
  match xs with
  | [] => []
  | x :: xs' => (j, x) :: number (S j) xs'
  end.

(** The hotel futures of [main], run by the pool in the order [sched]. *)
Definition hotel_futures (Ws : Worlds) (sched : list nat) (hotel_cities : list string)
  : list (Executor.future (nat * string) (Py.result agent_result)) :=
  Executor.run_schedule (hotel_task Ws) sched
    (Executor.submit_all (number 0 hotel_cities)).

(** What [main] has when every [future.result()] has returned. *)
Record aggregate : Type := Aggregate {
  flight_result : agent_result;
  hotel_results : list (string * agent_result);
  activity_result : Activity.activity_result
}.

(** The body of [if travel_query:] in [main] (streamlit.py:43-102), so
    [main] on a request that is not the empty text, up to the rendering:
    the futures are submitted, then [result()] is taken of the flight
    future, of each hotel future in city order, and of the activity future;
    a task's exception is raised again by its [result()].  On the empty
    text [main] submits nothing. *)
Definition main (Ws : Worlds) (travel_query : string) : Py.result aggregate :=
  let flight_future := call flight_agent (flight_world Ws) travel_query in
  hotel_cities <- Hotel.extract_cities_with_claude (main_world Ws) travel_query REGION ;;
  let hotel_futures := map (hotel_task Ws) (number 0 hotel_cities) in
  let activity_future := call activity_agent (activity_world Ws) travel_query in
  flight <- flight_future ;;
  hotels <- mapM (fun cf : string * Py.result agent_result =>
                    r <- snd cf ;; Ok (fst cf, r))
                 (combine hotel_cities hotel_futures) ;;
  activity <- activity_future ;;
  Ok (Aggregate flight hotels activity).

End WithLibraries.
End Streamlit.

(* ================================================================== *)
(** ** Reference libraries

    An executable instance of [Libraries], used to run the embedded code on
    concrete inputs.  The decoders read a fragment of JSON and of the
    Python literal syntax: [null]/[true]/[false] (JSON) or
    [None]/[True]/[False] (Python), decimal integers, strings with the
    escapes for backslash, quote, line feed, carriage return and tab,
    lists, tuples (Python), and dicts with string keys.  A text outside the
    fragment (floats, unicode escapes, other key types and so on) is
    rejected here although the library reads it; the statements that
    quantify over every [Libraries] do not depend on this instance. *)

Module Ref.
Import Py.

Record dialect : Type := Dialect {
  single_quotes : bool;
  keywords : list (string * pyval);
  tuples : bool;
  trailing_comma : bool;
  all_zero_int : bool;
  error_class : string
}.

Definition json_dialect : dialect :=
  Dialect false [("null", PNone); ("true", PBool true); ("false", PBool false)]
    false false false "JSONDecodeError".

Definition python_dialect : dialect :=
  Dialect true [("None", PNone); ("True", PBool true); ("False", PBool false)]
    true true true "SyntaxError".

Definition is_ws (c : ascii) : bool :=
  let n := nat_of_ascii c in
  ((n =? 32) || (n =? 9) || (n =? 10) || (n =? 13))%nat.

Fixpoint skip_ws (s : string) : string :=
  match s with
  | String c r => if is_ws c then skip_ws r else s
  | EmptyString => EmptyString
  end.

Definition is_digit (c : ascii) : bool :=
  let n := nat_of_ascii c in ((48 <=? n) && (n <=? 57))%nat.

Definition is_word (c : ascii) : bool :=
  is_digit c || is_upper c || is_lower c || Ascii.eqb c "_" || Ascii.eqb c ".".

(** The longest prefix of characters satisfying [p], and the rest. *)
Fixpoint span (p : ascii -> bool) (s : string) : string * string :=
  match s with
  | String c r =>
      if p c then let '(a, b) := span p r in (String c a, b)
      else (EmptyString, s)
  | EmptyString => (EmptyString, EmptyString)
  end.

Fixpoint digits_value (acc : Z) (s : string) : Z :=
  match s with
  | String c r => digits_value (10 * acc + Z.of_nat (nat_of_ascii c - 48)) r
  | EmptyString => acc
  end.

Fixpoint forallb_digits (s : string) : bool :=
  match s with
  | String c r => is_digit c && forallb_digits r
  | EmptyString => true
  end.

Fixpoint all_zeros (s : string) : bool :=
  match s with
  | String c r => Ascii.eqb c "0" && all_zeros r
  | EmptyString => true
  end.

(** A run of digits that is a decimal integer literal of the dialect. *)
Definition int_literal (d : dialect) (ds : string) : option Z :=
  match ds with
  | EmptyString => None
  | String "0" EmptyString => Some 0%Z
  | String "0" _ =>
      if all_zero_int d && all_zeros ds then Some 0%Z else None
  | _ => Some (digits_value 0 ds)
  end.

Definition unescape (d : dialect) (e : ascii) : option ascii :=
  if Ascii.eqb e "\" then Some e
  else if Ascii.eqb e dquote then Some e
  else if Ascii.eqb e "'" then (if single_quotes d then Some e else None)
  else if Ascii.eqb e "n" then Some (ascii_of_nat 10)
  else if Ascii.eqb e "r" then Some (ascii_of_nat 13)
  else if Ascii.eqb e "t" then Some (ascii_of_nat 9)
  else None.

(** The body of a string literal after its opening quote [q]. *)
Fixpoint string_body (d : dialect) (q : ascii) (s : string) : option (string * string) :=
  match s with
  | EmptyString => None
  | String c r =>
      if Ascii.eqb c q then Some (EmptyString, r)
      else if Ascii.eqb c "\" then
        match r with
        | String e r' =>
            match unescape d e, string_body d q r' with
            | Some ch, Some (b, rest) => Some (String ch b, rest)
            | _, _ => None
            end
        | EmptyString => None
        end
      else if (nat_of_ascii c <? 32)%nat then None
      else
        match string_body d q r with
        | Some (b, rest) => Some (String c b, rest)
        | None => None
        end
  end.

Fixpoint assoc (k : string) (kws : list (string * pyval)) : option pyval :=
  match kws with
  | [] => None
  | (k', v) :: kws' => if String.eqb k k' then Some v else assoc k kws'
  end.

(** [d[k] = v] on the items of a dict with string keys: a key already
    present keeps its place and takes the new value. *)
Fixpoint dict_set (k : string) (v : pyval) (kvs : list (pyval * pyval))
  : list (pyval * pyval) :=
  match kvs with
  | [] => [(PStr k, v)]
  | (k', v') :: kvs' =>
      if eq_str k' k then (k', v) :: kvs'
      else (k', v') :: dict_set k v kvs'
  end.

Definition is_quote (d : dialect) (c : ascii) : bool :=
  Ascii.eqb c dquote || (single_quotes d && Ascii.eqb c "'").

Section Decoder.
Variable d : dialect.

Fixpoint value (fuel : nat) (s : string) {struct fuel} : option (pyval * string) :=
  match fuel with
  | O => None
  | S fuel' =>
      match skip_ws s with
      | EmptyString => None
      | String c r =>
          if is_quote d c then
            match string_body d c r with
            | Some (b, rest) => Some (PStr b, rest)
            | None => None
            end
          else if Ascii.eqb c "[" then
            match elements fuel' "]" true r with
            | Some (xs, _, rest) => Some (PList xs, rest)
            | None => None
            end
          else if Ascii.eqb c "(" then
            if tuples d then
              match elements fuel' ")" true r with
              | Some ([x], false, rest) => Some (x, rest)
              | Some (xs, _, rest) => Some (PTuple xs, rest)
              | None => None
              end
            else None
          else if Ascii.eqb c "{" then
            match members fuel' true [] r with
            | Some (kvs, rest) => Some (PDict kvs, rest)
            | None => None
            end
          else if Ascii.eqb c "-" then
            let '(ds, rest) := span is_word r in
            if forallb_digits ds then
              match int_literal d ds with
              | Some n => Some (PInt (- n), rest)
              | None => None
              end
            else None
          else if is_digit c then
            let '(ds, rest) := span is_word (String c r) in
            if forallb_digits ds then
              match int_literal d ds with
              | Some n => Some (PInt n, rest)
              | None => None
              end
            else None
          else
            let '(w, rest) := span is_word (String c r) in
            match assoc w (keywords d) with
            | Some v => Some (v, rest)
            | None => None
            end
      end
  end

with elements (fuel : nat) (close : ascii) (first : bool) (s : string) {struct fuel}
  : option (list pyval * bool * string) :=
  match fuel with
  | O => None
  | S fuel' =>
      match skip_ws s with
      | EmptyString => None
      | String c r =>
          if Ascii.eqb c close then
            if first then Some ([], false, r)
            else if trailing_comma d then Some ([], true, r)
            else None
          else
            match value fuel' (String c r) with
            | Some (x, rest) =>
                match skip_ws rest with
                | String c' r' =>
                    if Ascii.eqb c' close then Some ([x], false, r')
                    else if Ascii.eqb c' "," then
                      match elements fuel' close false r' with
                      | Some (xs, t, rest') => Some (x :: xs, t, rest')
                      | None => None
                      end
                    else None
                | EmptyString => None
                end
            | None => None
            end
      end
  end

with members (fuel : nat) (first : bool) (acc : list (pyval * pyval)) (s : string)
  {struct fuel} : option (list (pyval * pyval) * string) :=
  match fuel with
  | O => None
  | S fuel' =>
      match skip_ws s with
      | EmptyString => None
      | String c r =>
          if Ascii.eqb c "}" then
            if first || trailing_comma d then Some (acc, r) else None
          else if is_quote d c then
            match string_body d c r with
            | Some (k, rest) =>
                match skip_ws rest with
                | String ":" rest1 =>
                    match value fuel' rest1 with
                    | Some (x, rest2) =>
                        let acc' := dict_set k x acc in
                        match skip_ws rest2 with
                        | String c' r' =>
                            if Ascii.eqb c' "}" then Some (acc', r')
                            else if Ascii.eqb c' "," then members fuel' false acc' r'
                            else None
                        | EmptyString => None
                        end
                    | None => None
                    end
                | _ => None
                end
            | None => None
            end
          else None
      end
  end.

(** The decoder on a whole text. *)
Definition decode (s : string) : Py.result pyval :=
  match value (2 * String.length s + 2) s with
  | Some (v, rest) =>
      match skip_ws rest with
      | EmptyString => Ok v
      | _ => Raise (Exn (error_class d) "invalid syntax")
      end
  | None => Raise (Exn (error_class d) "invalid syntax")
  end.

End Decoder.

Definition loads : string -> Py.result pyval := decode json_dialect.
Definition eval_literal : string -> Py.result pyval := decode python_dialect.

(** A table: its column labels and its rows, each row with one cell per
    column. *)
Record frame : Type := Frame {
  columns : list string;
  rows : list (list pyval)
}.

Definition frame_empty (t : frame) : bool :=
  match columns t, rows t with
  | [], _ => true
  | _, [] => true
  | _, _ => false
  end.

Definition NaN : pyval := POpaque "nan" true.

Fixpoint cell (col : string) (cols : list string) (row : list pyval) : pyval :=
  match cols, row with
  | c :: cols', x :: row' => if String.eqb c col then x else cell col cols' row'
  | _, _ => NaN
  end.

Fixpoint union_columns (acc : list string) (cols : list string) : list string :=
  match cols with
  | [] => acc
  | c :: cols' =>
      if existsb (String.eqb c) acc then union_columns acc cols'
      else union_columns (acc ++ [c]) cols'
  end.

Definition frame_concat (ts : list frame) : frame :=
  let cols := fold_left (fun acc t => union_columns acc (columns t)) ts [] in
  Frame cols
    (flat_map (fun t => map (fun row => map (fun c => cell c (columns t) row) cols)
                            (rows t)) ts).

Fixpoint set_cell (col : string) (v : pyval) (cols : list string) (row : list pyval)
  : list pyval :=
  match cols, row with
  | c :: cols', x :: row' =>
      if String.eqb c col then v :: row' else x :: set_cell col v cols' row'
  | _, _ => row
  end.

Definition frame_setitem (t : frame) (col : string) (v : string) : frame :=
  if existsb (String.eqb col) (columns t) then
    Frame (columns t) (map (set_cell col (PStr v) (columns t)) (rows t))
  else
    Frame (columns t ++ [col]) (map (fun row => row ++ [PStr v]) (rows t)).

#[export] Instance libraries : Libraries := {|
  json_loads := loads;
  literal_eval := eval_literal;
  DataFrame := frame;
  df_empty := frame_empty;
  pd_DataFrame := Frame [] [];
  pd_concat := frame_concat;
  df_setitem := frame_setitem
|}.

End Ref.

(* ================================================================== *)
(** ** Stream events and inputs used below *)

Module Wire.
Import Py.

(** A text of the wire format written with ['] where the format has the
    double quote. *)
Fixpoint requote (s : string) : string :=
  match s with
  | EmptyString => EmptyString
  | String c r => String (if Ascii.eqb c "'" then dquote else c) (requote r)
  end.

(** The two kinds of [message.delta] payload the agents look for. *)
Inductive stream_event : Type :=
| TextDelta (text : string)
| ToolResultDelta (json_data : list (pyval * pyval)).

Definition content_item (ev : stream_event) : pyval :=
  match ev with
  | TextDelta t => PDict [(PStr "type", PStr "text"); (PStr "text", PStr t)]
  | ToolResultDelta kvs =>
      PDict [(PStr "type", PStr "tool_results");
             (PStr "tool_results",
              PDict [(PStr "content",
                      PList [PDict [(PStr "type", PStr "json");
                                    (PStr "json", PDict kvs)]])])]
  end.

(** The decoded payload of a [data:] line carrying one event. *)
Definition payload (ev : stream_event) : pyval :=
  PDict [(PStr "delta", PDict [(PStr "content", PList [content_item ev])])].

(** The texts of the [TextDelta]s, in order. *)
Fixpoint texts (evs : list stream_event) : string :=
  match evs with
  | [] => EmptyString
  | TextDelta t :: evs' => (t ++ texts evs')%string
  | ToolResultDelta _ :: evs' => texts evs'
  end.

(** The value under [key] of the last tool result that has the key, [v0]
    if none has. *)
Fixpoint last_value (key : string) (v0 : pyval) (evs : list stream_event) : pyval :=
  match evs with
  | [] => v0
  | TextDelta _ :: evs' => last_value key v0 evs'
  | ToolResultDelta kvs :: evs' =>
      last_value key (match lookup key kvs with Some v => v | None => v0 end) evs'
  end.

(** The value under [key] of the first tool result that has the key. *)
Fixpoint first_value (key : string) (evs : list stream_event) : pyval :=
  match evs with
  | [] => PNone
  | TextDelta _ :: evs' => first_value key evs'
  | ToolResultDelta kvs :: evs' =>
      match lookup key kvs with
      | Some v => v
      | None => first_value key evs'
      end
  end.

End Wire.

(* ================================================================== *)
(** ** Well-formed message frames *)

Module Frames.
Import Py.




End Frames.

Module Shapes.
Import Py Env Stream Pipeline.

Section WithLibraries.
Context {L : Libraries}.

(** The failure shape of a 5-tuple: everything after the streamed text and
    the interpretation is [None]. *)
Definition failure_shape (r : agent_result) : Prop :=
  r_sql_code r = PNone /\ r_best_option r = None /\ r_df r = None.





End WithLibraries.
End Shapes.

Module Scenario.
Import Py Env Stream Wire.
Local Open Scope string_scope.

#[local] Existing Instance Ref.libraries.

Definition delta_line : string := "event: message.delta".
Definition done_line : string := "event: done".
Definition error_line : string := "event: error".
Definition hi_line : string :=
  requote "data: {'delta':{'content':[{'type':'text','text':'Hi'}]}}".
Definition more_line : string :=
  requote "data: {'delta':{'content':[{'type':'text','text':' there'}]}}".
Definition boom_line : string := requote "data: {'message':'boom'}".
Definition sql_line : string :=
  requote ("data: {'delta':{'content':[{'type':'tool_results','tool_results':" ++
           "{'content':[{'type':'json','json':{'sql':'SELECT 1','text':'All rows'}}]}}]}}").

(** The decoded body of a model response with one text block. *)
Definition model_reply (text : string) : pyval :=
  PDict [(PStr "content",
          PList [PDict [(PStr "type", PStr "text"); (PStr "text", PStr text)]])].

(** An environment with a fixed answer of the streaming endpoint, of the
    SQL store, of the model and of the search service. *)
Definition world (resp : response) (table : Py.result Ref.frame)
  (model : Py.result pyval) (found : Py.result search_response) : World := {|
  auth_token := "0123456789abcdefghij";
  post := fun _ => resp;
  snowflake := fun _ => table;
  to_markdown := fun _ => Ok "| A |";
  invoke_model := fun _ => model;
  get_last_k_turns := fun _ _ _ _ => Ok (PList []);
  create_session := Ok tt;
  search := fun _ _ _ => found
|}.

Definition one_row : Ref.frame := Ref.Frame ["A"] [[PInt 1]].

Definition unavailable : exn := Exn "ClientError" "model endpoint unavailable".
Definition timeout : exn := Exn "ConnectionError" "connection reset".

Definition no_search : Py.result search_response :=
  Raise (Exn "NotFound" "no search service").

(** A stream that delivers a query and ends. *)
Definition sql_stream : response := Response [delta_line; sql_line] None.


(** An environment in which nothing goes wrong, and one whose stream
    breaks. *)
Definition good_world : World :=
  world sql_stream (Ok one_row) (Ok (model_reply "Best: A")) no_search.

(** An environment for the activity agent: the extraction call (the one
    with temperature 0.0) is answered with a trip from Delhi to Mumbai and
    Pune, the plan call with a plan, and every search with a one-row
    table. *)
Definition trip_text : string :=
  "{'source_city': 'Delhi', 'dest_cities': ['Mumbai','Pune'], 'duration': 5}".
Definition activity_world : World := {|
  auth_token := "0123456789abcdefghij";
  post := fun _ => sql_stream;
  snowflake := fun _ => Ok one_row;
  to_markdown := fun _ => Ok "| A |";
  invoke_model := fun req =>
    if String.eqb (Bedrock.temperature req) "0.0" then Ok (model_reply trip_text)
    else Ok (model_reply "Day 1: Mumbai. Day 2: Pune.");
  get_last_k_turns := fun _ _ _ _ => Ok (PList []);
  create_session := Ok tt;
  search := fun _ _ _ => Ok (SearchResponse (Some (Ok one_row)) None (Ok one_row))
|}.


(** More streams and environments. *)
Definition text_stream : response := Response [delta_line; hi_line] None.
Definition sql_then_broken : response :=
  Response [delta_line; hi_line; delta_line; sql_line] (Some timeout).
Definition error_payload_line : string :=
  requote "data: {'error':'quota exceeded','delta':{'content':[]}}".
Definition sql_error : exn := Exn "ProgrammingError" "SQL compilation error".

Definition text_world : World :=
  world text_stream (Ok one_row) (Raise unavailable) no_search.
Definition no_table_world : World :=
  world sql_stream (Raise sql_error) (Raise unavailable) no_search.
Definition empty_table_world : World :=
  world sql_stream (Ok (Ref.Frame ["A"] [])) (Raise unavailable) no_search.
Definition sql_then_broken_world : World :=
  world sql_then_broken (Ok one_row) (Ok (model_reply "Best: A")) no_search.


(** The activity environment with a memory client that is down, and with
    one that has a turn of two messages. *)
Definition memory_down : exn := Exn "ServiceException" "memory unavailable".
Definition with_memory (turns : Py.result pyval) : World := {|
  auth_token := auth_token activity_world;
  post := post activity_world;
  snowflake := snowflake activity_world;
  to_markdown := to_markdown activity_world;
  invoke_model := invoke_model activity_world;
  get_last_k_turns := fun _ _ _ _ => turns;
  create_session := create_session activity_world;
  search := search activity_world
|}.
Definition one_turn : list (list (string * string)) :=
  [[("user", "delhi to pune"); ("assistant", "Here are the flights.")]].

(** A request for which the main thread extracts Mumbai and Pune and
    every task returns, and one for which the flight task raises. *)
Definition cities_world : World :=
  world sql_stream (Ok one_row) (Ok (model_reply "['Mumbai', 'Pune']")) no_search.
Definition all_return : Streamlit.Worlds := {|
  Streamlit.main_world := cities_world;
  Streamlit.flight_world := good_world;
  Streamlit.hotel_world := fun _ => good_world;
  Streamlit.activity_world := activity_world
|}.
Definition flight_raises : Streamlit.Worlds := {|
  Streamlit.main_world := cities_world;
  Streamlit.flight_world := world sql_stream (Ok one_row) (Raise unavailable) no_search;
  Streamlit.hotel_world := fun _ => good_world;
  Streamlit.activity_world := activity_world
|}.

End Scenario.

(* ================================================================== *)
(** ** flight_booking_agent.py: the call without streaming *)

Module FlightSql.
Import Py Stream.
Local Open Scope string_scope.

(** What [requests.post] returns: the status code, the body text, and
    what [resp.json()] gives or raises. *)
Record http_response : Type := HttpResponse {
  status_code : Z;
  text : string;
  json : Py.result pyval
}.

(** The locals [sql] and [interpretation]. *)
Definition found : Type := (pyval * pyval)%type.

Fixpoint foldM {A : Type} (f : found -> A -> Py.result found)
  (a : found) (xs : list A) : Py.result found :=
  match xs with
  | [] => Ok a
  | x :: xs' => a' <- f a x ;; foldM f a' xs'
  end.

(** Body of [for result in tool_results.get('content', [])]. *)
Definition on_result (a : found) (result : pyval) : Py.result found :=
  ty <- get result "type" PNone ;;
  if eq_str ty "json" then
    json_data <- get result "json" (PDict []) ;;
    sql <- get json_data "sql" PNone ;;
    interpretation <- get json_data "text" PNone ;;
    Ok (sql, interpretation)
  else Ok a.

(** Body of [for content_item in content]. *)
Definition on_item (a : found) (content_item : pyval) : Py.result found :=
  ty <- get content_item "type" PNone ;;
  if eq_str ty "tool_results" then
    tool_results <- get content_item "tool_results" (PDict []) ;;
    c <- get tool_results "content" (PList []) ;;
    results <- iter c ;;
    foldM on_result a results
  else Ok a.

(** The [content] list of the decoded body. *)
Definition content_of (data : pyval) : Py.result pyval :=
  has_delta <- contains "delta" data ;;
  if has_delta : bool then
    delta <- getitem data "delta" ;;
    get delta "content" (PList [])
  else
    has_content <- contains "content" data ;;
    if has_content : bool then getitem data "content" else Ok (PList []).

(** [cortex_analyst_sql(query)] (flight_booking_agent.py:46-101), with the
    endpoint as [post]; the two prints are left out. *)
Definition cortex_analyst_sql (post : request -> Py.result http_response)
  (query : string) : Py.result found :=
  try_except
    (resp <- post (Request "Generate SQL for flight booking queries."
                     Flight.SEMANTIC_MODELS query) ;;
     if negb (status_code resp =? 200)%Z then
       Ok (PNone,
           PStr ("Cortex Analyst error: " ++ str_of_Z (status_code resp)
                 ++ " " ++ text resp))
     else
       data <- json resp ;;
       content <- content_of data ;;
       items <- iter content ;;
       foldM on_item (PNone, PNone) items)
    (fun e => Ok (PNone, PStr ("Cortex Analyst exception: " ++ exn_str e))).

(** The decoded body [{"delta": {"content": [...]}}] with one content
    item per event. *)
Definition body (evs : list Wire.stream_event) : pyval :=
  PDict [(PStr "delta",
          PDict [(PStr "content", PList (map Wire.content_item evs))])].

Definition or_none (o : option pyval) : pyval :=
  match o with
  | Some v => v
  | None => PNone
  end.

(** The [sql] and [text] of the last tool result, [None] for one it does
    not have; [a] if there is no tool result. *)
Fixpoint last_json (a : found) (evs : list Wire.stream_event) : found :=
  match evs with
  | [] => a
  | Wire.TextDelta _ :: evs' => last_json a evs'
  | Wire.ToolResultDelta kvs :: evs' =>
      last_json (or_none (lookup "sql" kvs), or_none (lookup "text" kvs)) evs'
  end.

(** An answer of the endpoint that is not a success and has no JSON
    body. *)
Definition forbidden : http_response :=
  HttpResponse 403 "Forbidden" (Raise (Exn "JSONDecodeError" "Expecting value")).

End FlightSql.

(* ================================================================== *)
(** ** Conversation turns as the memory client returns them *)

Module Turns.
Import Py.

(** One message of a turn: [{'role': role, 'content': {'text': text}}]. *)
Definition message (role text : string) : pyval :=
  PDict [(PStr "role", PStr role);
         (PStr "content", PDict [(PStr "text", PStr text)])].

Definition turn (ms : list (string * string)) : pyval :=
  PList (map (fun m => message (fst m) (snd m)) ms).

Definition turns (ts : list (list (string * string))) : pyval :=
  PList (map turn ts).

(** The line of the context for one message. *)
Definition context_line (m : string * string) : string :=
  (title (fst m) ++ ": " ++ snd m ++ nl)%string.

Fixpoint context_of (ms : list (string * string)) : string :=
  match ms with
  | [] => EmptyString
  | m :: ms' => (context_line m ++ context_of ms')%string
  end.

End Turns.

(* ================================================================== *)
(** ** streamlit.py: what [main] renders *)

Module Ui.
Import Py Env Pipeline.
Local Open Scope string_scope.

Section WithLibraries.
Context {L : Libraries}.

(** The calls on [st] that put something on the page; a [with
    st.expander(label)] block is the expander with what is rendered inside
    it.  [st.spinner] leaves nothing on the page. *)
#[warnings="-register-all"]
Inductive widget : Type :=
| Title (s : string)
| Header (s : string)
| Subheader (s : string)
| Markdown (s : string)
| Dataframe (df : DataFrame)
| Code (body : pyval) (language : string)
| Expander (label : string) (body : list widget)
| Info (s : string)
| Error (s : string).

(** The character U+2022 of [streamed_text.replace], in UTF-8. *)
Definition bullet : string :=
  String (ascii_of_nat 226) (String (ascii_of_nat 128)
    (String (ascii_of_nat 162) EmptyString)).

Definition NO_RESULTS : string := "No results found.".
Definition SQL_ERROR : string := "Error running SQL or generating results.".

(** The rendering of one 5-tuple (streamlit.py:52-69 and 75-92); the three
    labels are what differs between the flight and the hotel copy. *)
Definition render_booking (best_heading all_label sql_label : string)
  (r : agent_result) : list widget :=
  ((if negb (String.eqb (r_streamed_text r) EmptyString)
    then [Markdown (replace bullet (nl ++ nl) (r_streamed_text r))] else [])
   ++ (if truthy (r_interpretation r)
       then [Markdown ("**Interpretation:** " ++ str (r_interpretation r))] else [])
   ++ (match r_best_option r with
       | Some b =>
           if negb (String.eqb b EmptyString)
           then [Markdown "---"; Markdown best_heading; Markdown (strip b)]
           else []
       | None => []
       end)
   ++ (match r_df r with
       | Some d =>
           if negb (df_empty d) then [Expander all_label [Dataframe d]] else []
       | None => []
       end)
   ++ (if truthy (r_sql_code r)
       then [Expander sql_label [Code (r_sql_code r) "sql"]]
       else match r_df r with
            | Some _ => [Info NO_RESULTS]
            | None =>
                match r_sql_code r with
                | PNone => [Error SQL_ERROR]
                | _ => []
                end
            end))%list.

Definition render_flight (r : agent_result) : list widget :=
  render_booking "### Best Flight Option (Claude):" "Show all flight options"
    "Show generated SQL" r.

(** Body of [for city, future in zip(hotel_cities, hotel_futures)] once
    the future has returned. *)
Definition render_hotel (city : string) (r : agent_result) : list widget :=
  (Subheader ("Hotels in " ++ city)
   :: render_booking ("### Best Hotel Option in " ++ city ++ " (Claude):")
        ("Show all hotel options for " ++ city)
        ("Show generated SQL for " ++ city) r)%list.

(** streamlit.py:96-102. *)
Definition render_activity (r : Activity.activity_result) : list widget :=
  (Markdown (Activity.a_plan_md r)
   :: (if negb (df_empty (Activity.a_activities_df r))
       then [Expander "Show all activity search results"
               [Dataframe (Activity.a_activities_df r)]]
       else [Info "No activities found."]))%list.

(** The notices of a page: its [st.info] and [st.error] calls at top
    level. *)
Definition is_notice (w : widget) : bool :=
  match w with
  | Info _ | Error _ => true
  | _ => false
  end.

End WithLibraries.
End Ui.

(* ================================================================== *)
(** * Properties

    Statements with a [Libraries] argument hold for every implementation
    of the external libraries; closed statements are evaluations with the
    reference libraries. *)

#[local] Existing Instance Ref.libraries.

(** ** Strings *)

Lemma prefix_trans (a b c : string) :
  String.prefix a b = true -> String.prefix b c = true -> String.prefix a c = true.
Proof.
  revert b c.
  induction a as [|x a IH]; intros b c Hab Hbc; [now destruct c|].
  destruct b as [|y b]; [discriminate|].
  destruct c as [|z c]; [discriminate|].
  simpl in *.
  destruct (ascii_dec x y) as [->|]; [|discriminate].
  destruct (ascii_dec y z) as [->|]; [|discriminate].
  eauto.
Qed.

Lemma startswith_head (p s : string) (c : ascii) (p' : string) :
  p = String c p' -> Py.startswith p s = true -> exists r, s = String c r.
Proof.
  intros -> H. destruct s as [|d r]; [discriminate|].
  unfold Py.startswith in H. simpl in H.
  destruct (ascii_dec c d) as [->|]; [eauto|discriminate].
Qed.

Lemma rstrip_nonempty (c : ascii) (r : string) :
  Py.is_space c = false -> Py.rstrip (String c r) <> EmptyString.
Proof.
  intros Hc. simpl. destruct (Py.rstrip r); [rewrite Hc|]; discriminate.
Qed.

Lemma strip_nonempty (c : ascii) (r : string) :
  Py.is_space c = false -> String.eqb (Py.strip (String c r)) EmptyString = false.
Proof.
  intros Hc. unfold Py.strip. simpl. rewrite Hc.
  apply String.eqb_neq. now apply rstrip_nonempty.
Qed.

(** ** The streaming loop *)

Section StreamFacts.
Import Py Stream.
Context {L : Libraries}.

(** A line that starts with ["event: done"] starts with ["event:"], so the
    [break] branch is never reached. *)
Lemma loop_body_continues (prev : option string) (line : string) :
  snd (loop_body prev line) = Continue.
Proof.
  unfold loop_body.
  destruct (String.eqb (strip line) EmptyString); [reflexivity|].
  destruct (startswith "event:" line) eqn:He; [reflexivity|].
  destruct (startswith "data:" line).
  - destruct (opt_eqb prev "event: message.delta").
    + destruct (json_loads _); reflexivity.
    + destruct (opt_eqb prev "event: error"); reflexivity.
  - destruct (startswith "event: done" line) eqn:Hd; [|reflexivity].
    exfalso.
    assert (startswith "event:" line = true) as Hc
      by (apply (prefix_trans "event:" "event: done" line); [reflexivity|exact Hd]).
    congruence.
Qed.

Lemma loop_never_breaks (prev : option string) (ls : list string) :
  broke (iter_lines_loop prev ls) = false /\ unread (iter_lines_loop prev ls) = [].
Proof.
  revert prev. induction ls as [|line rest IH]; intros prev; [split; reflexivity|].
  simpl. pose proof (loop_body_continues prev line) as Hc.
  destruct (loop_body prev line) as [[acts prev'] fl]. simpl in Hc. subst fl.
  simpl. apply IH.
Qed.

Lemma loop_app (prev : option string) (a b : list string) :
  let st := iter_lines_loop prev a in
  trace (iter_lines_loop prev (a ++ b))
    = trace st ++ trace (iter_lines_loop (prev_event st) b)
  /\ prev_event (iter_lines_loop prev (a ++ b))
    = prev_event (iter_lines_loop (prev_event st) b).
Proof.
  revert prev. induction a as [|line rest IH]; intros prev; [split; reflexivity|].
  simpl. pose proof (loop_body_continues prev line) as Hc.
  destruct (loop_body prev line) as [[acts prev'] fl]. simpl in Hc. subst fl.
  simpl. destruct (IH prev') as [Ht Hp]. split.
  - rewrite Ht. now rewrite app_assoc.
  - exact Hp.
Qed.

Lemma yields_app (a b : list action) : yields (a ++ b) = yields a ++ yields b.
Proof.
  induction a as [|[v|s] a IH]; simpl; [reflexivity| |]; now rewrite IH.
Qed.

(** A line that starts with ["data:"] is not blank and is not an event
    label. *)
Lemma data_line_branch (line : string) :
  startswith "data:" line = true ->
  String.eqb (strip line) EmptyString = false /\ startswith "event:" line = false.
Proof.
  intros H.
  destruct (startswith_head "data:" line "d" "ata:" eq_refl H) as [r ->].
  split; [now apply strip_nonempty|reflexivity].
Qed.

(** What the loop does with one line, by cases on the line and on the
    pending event. *)
Lemma loop_step (prev : option string) (line : string) (rest : list string) :
  iter_lines_loop prev (line :: rest) =
    let st := iter_lines_loop (snd (fst (loop_body prev line))) rest in
    LoopState (fst (fst (loop_body prev line)) ++ trace st)
              (prev_event st) (broke st) (unread st).
Proof.
  simpl. pose proof (loop_body_continues prev line) as Hc.
  destruct (loop_body prev line) as [[acts prev'] fl]. simpl in Hc. subst fl.
  reflexivity.
Qed.

End StreamFacts.

Section ParserClaims.
Import Py Stream.
Context {L : Libraries}.

(** A data line read while ["event: error"] is pending is printed. *)
Lemma loop_body_error (line : string) :
  startswith "data:" line = true ->
  loop_body (Some "event: error") line =
    ([Print ("API error event: " ++ line)], Some "event: error", Continue).
Proof.
  intros H. destruct (data_line_branch line H) as [Hb He].
  unfold loop_body. now rewrite Hb, He, H.
Qed.



(** The events of a stream around one line, in terms of the body's result
    on that line. *)
Lemma yields_around (prev : option string) (pre post : list string) (line : string) :
  let p := prev_event (iter_lines_loop prev pre) in
  yields (trace (iter_lines_loop prev (pre ++ line :: post)))
    = yields (trace (iter_lines_loop prev pre))
      ++ yields (fst (fst (loop_body p line)))
      ++ yields (trace (iter_lines_loop (snd (fst (loop_body p line))) post)).
Proof.
  intros p. destruct (loop_app prev pre (line :: post)) as [Ht _].
  rewrite Ht, yields_app. fold p. rewrite loop_step. simpl trace.
  now rewrite yields_app.
Qed.

Lemma stream_response_yields (ls : list string) (f : option exn) :
  yields (stream_response (Response ls f))
    = yields (trace (iter_lines_loop None ls))
      ++ match f with Some e => [error_dict e] | None => [] end.
Proof.
  unfold stream_response. simpl lines. simpl failure.
  destruct (loop_never_breaks None ls) as [-> _].
  rewrite yields_app. now destruct f.
Qed.

End ParserClaims.

(** C1 (evaluation of the code at the failing input).  The stream
    [event: message.delta / data: Hi / event: done / event: message.delta /
    data: there] has a done event in third place; the parser reads the two
    lines after it and yields the second text too, and it leaves no line
    unread.  On the three-line stream of the scenario it yields the one
    text and the stream ends with the input. *)
Theorem done_line_does_not_end_the_parse :
  let after_done :=
    Stream.Response
      [Scenario.delta_line; Scenario.hi_line; Scenario.done_line;
       Scenario.delta_line; Scenario.more_line] None in
  let scenario :=
    Stream.Response
      [Scenario.delta_line; Scenario.hi_line; Scenario.done_line] None in
  let W resp := Scenario.world resp (Py.Ok Scenario.one_row)
                  (Py.Raise Scenario.unavailable) Scenario.no_search in
  Stream.yields (Hotel.cortex_analyst_sql_stream (W after_done) "q")
    = [Wire.payload (Wire.TextDelta "Hi"); Wire.payload (Wire.TextDelta " there")]
  /\ Stream.yields (Flight.cortex_analyst_sql_stream (W after_done) "q")
    = [Wire.payload (Wire.TextDelta "Hi"); Wire.payload (Wire.TextDelta " there")]
  /\ Stream.unread (Stream.iter_lines_loop None (Stream.lines after_done)) = []
  /\ Stream.broke (Stream.iter_lines_loop None (Stream.lines after_done)) = false
  /\ Stream.yields (Hotel.cortex_analyst_sql_stream (W scenario) "q")
    = [Wire.payload (Wire.TextDelta "Hi")].
Proof.
  vm_compute. repeat split; reflexivity.
Qed.

(** C3 (counterexample).  For the stream [event: error / data:
    {"message":"boom"}] the parser yields nothing at all to its consumer:
    no ErrorEvent is delivered for the data line. *)
Lemma error_data_line_yields_nothing :
  ~ exists v : Py.pyval,
      In v (Stream.yields
              (Hotel.cortex_analyst_sql_stream
                 (Scenario.world
                    (Stream.Response [Scenario.error_line; Scenario.boom_line] None)
                    (Py.Ok Scenario.one_row) (Py.Raise Scenario.unavailable)
                    Scenario.no_search)
                 "q")).
Proof.
  intros [v H]. vm_compute in H. exact H.
Qed.

(** C3 (amended).  For every data line read while the pending event is
    ["event: error"], the parser prints the line after ["API error event: "],
    yields nothing for it, and goes on with the next line with the pending
    event unchanged: the events of the stream are those of the lines before
    followed by those of the lines after. *)
Theorem error_data_line_is_printed {L : Libraries}
  (pre post : list string) (line : string) :
  Py.startswith "data:" line = true ->
  Stream.prev_event (Stream.iter_lines_loop None pre) = Some "event: error"%string ->
  Stream.trace (Stream.iter_lines_loop None (pre ++ line :: post))
    = Stream.trace (Stream.iter_lines_loop None pre)
      ++ Stream.Print ("API error event: " ++ line)
         :: Stream.trace (Stream.iter_lines_loop (Some "event: error"%string) post)
  /\ Stream.yields (Stream.trace (Stream.iter_lines_loop None (pre ++ line :: post)))
    = Stream.yields (Stream.trace (Stream.iter_lines_loop None pre))
      ++ Stream.yields
           (Stream.trace (Stream.iter_lines_loop (Some "event: error"%string) post)).
Proof.
  intros Hd Hp. split.
  - destruct (loop_app None pre (line :: post)) as [Ht _].
    rewrite Ht, Hp, loop_step, (loop_body_error line Hd). reflexivity.
  - rewrite yields_around, Hp, (loop_body_error line Hd). reflexivity.
Qed.

Lemma error_data_line_is_printed_witness :
  Stream.yields
    (Stream.trace
       (Stream.iter_lines_loop (L := Ref.libraries) None
          ([Scenario.error_line] ++ Scenario.boom_line :: [Scenario.delta_line; Scenario.hi_line])))
  = Stream.yields
      (Stream.trace (Stream.iter_lines_loop (L := Ref.libraries) None [Scenario.error_line]))
    ++ Stream.yields
         (Stream.trace
            (Stream.iter_lines_loop (L := Ref.libraries) (Some "event: error"%string)
               [Scenario.delta_line; Scenario.hi_line])).
Proof.
  apply (error_data_line_is_printed (L := Ref.libraries)
           [Scenario.error_line] [Scenario.delta_line; Scenario.hi_line]
           Scenario.boom_line); reflexivity.
Defined.

Section FrameFacts.
Import Py Stream Frames.
Context {L : Libraries}.



End FrameFacts.



(** ** The consumer of the stream *)

Section ConsumerFacts.
Import Py Stream Pipeline Wire.
Context {L : Libraries}.

Lemma drain_app (a : locals) (ds ds' : list pyval) :
  drain a (ds ++ ds') =
    match drain a ds with
    | Ok (inr a') => drain a' ds'
    | other => other
    end.
Proof.
  revert a. induction ds as [|d ds IH]; intros a; [reflexivity|].
  simpl. destruct (on_data a d) as [[res|a']|e]; simpl; auto.
Qed.

(** The dict of the [except] clause makes the consumer return the partial
    tuple. *)
Lemma on_data_error_dict (a : locals) (e : exn) :
  on_data a (error_dict e) = Ok (inl (partial a)).
Proof. reflexivity. Qed.

(** One payload carrying one event. *)
Lemma on_data_payload (a : locals) (ev : stream_event) :
  on_data a (payload ev) =
    Ok (inr match ev with
            | TextDelta t =>
                Locals (streamed_text a ++ t) (interpretation a) (sql_code a)
            | ToolResultDelta kvs =>
                Locals (streamed_text a)
                  (match lookup "text" kvs with
                   | Some v => v
                   | None => interpretation a
                   end)
                  (match lookup "sql" kvs with
                   | Some v => v
                   | None => sql_code a
                   end)
            end).
Proof.
  destruct a as [s i q], ev as [t|kvs].
  - reflexivity.
  - unfold on_data, payload, content_item. cbn.
    destruct (lookup "text" kvs), (lookup "sql" kvs); reflexivity.
Qed.

Lemma drain_payloads (a : locals) (evs : list stream_event) :
  drain a (map payload evs) =
    Ok (inr (Locals (streamed_text a ++ texts evs)
                    (last_value "text" (interpretation a) evs)
                    (last_value "sql" (sql_code a) evs))).
Proof.
  revert a. induction evs as [|ev evs IH]; intros a.
  - simpl. destruct a as [s i q]. simpl.
    assert ((s ++ EmptyString)%string = s) as ->; [|reflexivity].
    clear. induction s; simpl; congruence.
  - cbn [map drain]. rewrite on_data_payload. cbn [bind].
    rewrite IH. destruct ev as [t|kvs]; cbn [streamed_text interpretation sql_code texts last_value].
    + assert (((streamed_text a ++ t) ++ texts evs)%string
              = (streamed_text a ++ (t ++ texts evs))%string) as ->; [|reflexivity].
      generalize (streamed_text a). clear.
      intros s; induction s; simpl; congruence.
    + reflexivity.
Qed.

End ConsumerFacts.

(** C5 (counterexample).  Two tool results arrive, the first with the query
    [SELECT 1] and the interpretation [first], the second with [SELECT 2]
    and [second]: what the consumer holds after the stream is the query and
    the interpretation of the second, not of the first. *)
Lemma first_tool_result_is_overwritten :
  let evs :=
    [Wire.ToolResultDelta
       [(Py.PStr "sql", Py.PStr "SELECT 1"); (Py.PStr "text", Py.PStr "first")];
     Wire.ToolResultDelta
       [(Py.PStr "sql", Py.PStr "SELECT 2"); (Py.PStr "text", Py.PStr "second")]] in
  exists a,
    Pipeline.drain Pipeline.init (map Wire.payload evs) = Py.Ok (inr a)
    /\ Pipeline.sql_code a <> Wire.first_value "sql" evs
    /\ Pipeline.interpretation a <> Wire.first_value "text" evs.
Proof.
  intros evs.
  exists (Pipeline.Locals EmptyString (Py.PStr "second") (Py.PStr "SELECT 2")).
  split; [reflexivity|]. split; intros H; vm_compute in H; discriminate H.
Qed.

(** C5 (amended).  For every sequence of text and tool-result payloads
    drained by the streaming loop, the loop ends with the concatenation of
    all texts, in order, as the streamed text, and with the [sql] and the
    [text] of the last tool result that carries each as the generated query
    and the interpretation ([None] where no tool result carries it). *)
Theorem drain_accumulates_text_and_keeps_last_tool_result {L : Libraries}
  (evs : list Wire.stream_event) :
  Pipeline.drain Pipeline.init (map Wire.payload evs) =
    Py.Ok (inr (Pipeline.Locals (Wire.texts evs)
                  (Wire.last_value "text" Py.PNone evs)
                  (Wire.last_value "sql" Py.PNone evs))).
Proof.
  rewrite drain_payloads. reflexivity.
Qed.

(** ** The thread pool: the results do not depend on the schedule *)

Section ExecutorFacts.
Import Executor.
Context {A R : Type}.
Variable f : A -> R.











End ExecutorFacts.

(** ** The agent pipeline *)

Section PipelineFacts.
Import Py Env Stream Pipeline Shapes.
Context {L : Libraries}.

Lemma partial_failure_shape (a : locals) : failure_shape (partial a).
Proof. repeat split. Qed.

Lemma on_data_inl (a : locals) (d : pyval) (res : agent_result) :
  on_data a d = Ok (inl res) -> res = partial a.
Proof.
  unfold on_data. destruct (contains "error" d) as [[|]|e]; simpl.
  - congruence.
  - destruct (get d "delta" (PDict [])) as [delta|]; simpl; [|discriminate].
    destruct (get delta "content" (PList [])) as [content|]; simpl; [|discriminate].
    destruct (iter content) as [items|]; simpl; [|discriminate].
    destruct (foldM on_item a items); simpl; discriminate.
  - discriminate.
Qed.

(** An early return of the streaming loop is a partial tuple. *)
Lemma drain_inl (a : locals) (ds : list pyval) (res : agent_result) :
  drain a ds = Ok (inl res) -> exists a', res = partial a'.
Proof.
  revert a. induction ds as [|d ds IH]; intros a H; [discriminate|].
  simpl in H. destruct (on_data a d) as [[res'|a']|e] eqn:Hd; simpl in H.
  - injection H as <-. exists a. now apply on_data_inl with d.
  - eauto.
  - discriminate.
Qed.

Section Agent.
Variable stream : World -> string -> list action.
Variable best : World -> DataFrame -> string -> string -> Py.result string.

(** The ranking call has no handler around it: when it raises, the agent
    raises. *)
Lemma agent_ranking_raises (W : World) (region query : string) (a : locals)
  (d : DataFrame) (e : exn) :
  drain init (yields (stream W query)) = Ok (inr a) ->
  truthy (sql_code a) = true ->
  snowflake W (sql_code a) = Ok d ->
  df_empty d = false ->
  best W d query region = Raise e ->
  agent stream best W region query = Raise e.
Proof.
  intros Hd Ht Hs He Hb. unfold agent, run_sql_on_snowflake.
  rewrite Hd. simpl. rewrite Ht. simpl. rewrite Hs. simpl.
  rewrite He. simpl. rewrite Hb. reflexivity.
Qed.



End Agent.



End PipelineFacts.

(** C2 (evaluation of the code at the failing input).  The stream carries a
    query, the SQL store returns a table with one row, and the model call
    of the ranking step raises: the exception leaves the flight agent, and
    the hotel agent, instead of a tuple with a null ranked summary. *)
Theorem ranking_failure_leaves_the_agent :
  let W := Scenario.world Scenario.sql_stream (Py.Ok Scenario.one_row)
             (Py.Raise Scenario.unavailable) Scenario.no_search in
  call (Streamlit.flight_agent Py.PNone "us-east-1") W "flights from Delhi to Pune"
    = Py.Raise Scenario.unavailable
  /\ call (Streamlit.hotel_agent Py.PNone "us-east-1") W "Find hotels in Pune"
    = Py.Raise Scenario.unavailable.
Proof.
  intros W. split; reflexivity.
Qed.

(** ** The hotel tasks of the orchestrator *)

Section Numbering.
Context {A : Type}.



End Numbering.



(** ** The extraction chain *)

Section ExtractionFacts.
Import Py.
Context {L : Libraries}.

(** Trip-intent extraction, by cases on what [ast.literal_eval] does with
    the text. *)
Lemma trip_info_of_text_cases (text : string) :
  Activity.trip_info_of_text text =
    Ok match literal_eval text with
       | Ok (PDict kvs) => PDict kvs
       | _ => Activity.default_trip_info
       end.
Proof.
  unfold Activity.trip_info_of_text.
  destruct (literal_eval text) as [[]|]; reflexivity.
Qed.

(** City extraction, by cases on what [ast.literal_eval] does with the
    text. *)
Lemma cities_of_text_cases (text : string) :
  Hotel.cities_of_text text =
    Ok match literal_eval text with
       | Ok (PList xs) => map str xs
       | _ => []
       end.
Proof.
  unfold Hotel.cities_of_text.
  destruct (literal_eval text) as [[]|]; reflexivity.
Qed.

End ExtractionFacts.

(** C4 (counterexample).  The text [{}] is a mapping literal without the
    required keys, and [[1, 2]] is a list literal whose elements are not
    text: trip-intent extraction returns the empty mapping, not the
    default, and city extraction returns the two numbers as text, not the
    empty list. *)
Lemma shape_mismatch_is_not_defaulted :
  Activity.trip_info_of_text "{}" = Py.Ok (Py.PDict [])
  /\ Py.PDict [] <> Activity.default_trip_info
  /\ Hotel.cities_of_text "[1, 2]" = Py.Ok ["1"%string; "2"%string]
  /\ ["1"%string; "2"%string] <> [].
Proof.
  repeat split; try reflexivity; discriminate.
Qed.

(** C4 (amended).  For every model-output text the chain returns a value
    and never raises.  Trip-intent extraction returns the parsed value when
    the literal parse gives a mapping, whatever its keys and values, and
    the default [{source_city: "", dest_cities: [], duration: None}] when
    the parse fails or gives anything else.  City extraction returns the
    elements converted with [str] when the parse gives a list, whatever its
    elements, and the empty list when the parse fails or gives anything
    else. *)
Theorem extraction_defaults_on_parse_failure_or_wrong_type {L : Libraries}
  (text : string) :
  Activity.trip_info_of_text text =
    Py.Ok match literal_eval text with
          | Py.Ok (Py.PDict kvs) => Py.PDict kvs
          | _ => Py.PDict [(Py.PStr "source_city", Py.PStr EmptyString);
                           (Py.PStr "dest_cities", Py.PList []);
                           (Py.PStr "duration", Py.PNone)]
          end
  /\ Hotel.cities_of_text text =
    Py.Ok match literal_eval text with
          | Py.Ok (Py.PList xs) => map Py.str xs
          | _ => []
          end.
Proof.
  split; [apply trip_info_of_text_cases|apply cities_of_text_cases].
Qed.

(** C9.  For every text that [ast.literal_eval] reads as a mapping with
    the keys [source_city], [dest_cities] and [duration], trip-intent
    extraction returns that mapping unchanged. *)
Theorem trip_info_round_trip {L : Libraries}
  (text : string) (kvs : list (Py.pyval * Py.pyval)) :
  literal_eval text = Py.Ok (Py.PDict kvs) ->
  Py.lookup "source_city" kvs <> None ->
  Py.lookup "dest_cities" kvs <> None ->
  Py.lookup "duration" kvs <> None ->
  Activity.trip_info_of_text text = Py.Ok (Py.PDict kvs).
Proof.
  intros H _ _ _. rewrite trip_info_of_text_cases, H. reflexivity.
Qed.

(** The scenario of the specification. *)
Lemma trip_info_round_trip_witness :
  Activity.trip_info_of_text (L := Ref.libraries)
    "{'source_city': 'Delhi', 'dest_cities': ['Mumbai','Pune'], 'duration': 5}"
  = Py.Ok (Py.PDict [(Py.PStr "source_city", Py.PStr "Delhi");
                     (Py.PStr "dest_cities",
                      Py.PList [Py.PStr "Mumbai"; Py.PStr "Pune"]);
                     (Py.PStr "duration", Py.PInt 5)]).
Proof.
  apply (trip_info_round_trip (L := Ref.libraries)); try reflexivity; discriminate.
Defined.

(** ** The identities of the sub-agents *)

(** C8 (counterexample).  For the destinations Mumbai and Pune the
    orchestrator submits four tasks, and the actor ids of the sub-agents
    that run them are not distinct: the two hotel tasks are run by the one
    hotel agent. *)
Lemma actor_ids_are_not_distinct :
  let tasks :=
    Streamlit.dispatched (L := Ref.libraries) Py.PNone "us-east-1"
      "delhi to mumbai and pune and back" ["Mumbai"%string; "Pune"%string] in
  length tasks = 4
  /\ ~ NoDup (map Streamlit.task_actor_id tasks)
  /\ (exists t1 t2,
        nth_error tasks 1 = Some t1 /\ nth_error tasks 2 = Some t2
        /\ Streamlit.task_domain t1 = Streamlit.HotelDomain
        /\ Streamlit.task_domain t2 = Streamlit.HotelDomain
        /\ Streamlit.scope_key t1 <> Streamlit.scope_key t2
        /\ Streamlit.task_actor_id t1 = Streamlit.task_actor_id t2).
Proof.
  split; [reflexivity|]. split.
  - intros H. simpl in H. inversion H as [|x l Hn _]. apply Hn. simpl. auto.
  - do 2 eexists. repeat split; try reflexivity. simpl. discriminate.
Qed.

(** C8 (amended).  Every task the orchestrator submits is run by a
    sub-agent made with the one session id of the module, and every hotel
    task, whatever its city, is run by the one hotel agent: all per-city
    hotel tasks have the same actor id and the same session id. *)
Theorem sub_agents_share_the_session {L : Libraries}
  (MEMORY_ID : Py.pyval) (REGION : string) (travel_query : string)
  (hotel_cities : list string) (t : Streamlit.task) :
  In t (Streamlit.dispatched MEMORY_ID REGION travel_query hotel_cities) ->
  Streamlit.task_session_id t = Streamlit.SESSION_ID
  /\ (Streamlit.task_domain t = Streamlit.HotelDomain ->
      Streamlit.task_actor_id t = actor_id (Streamlit.hotel_agent MEMORY_ID REGION)
      /\ Streamlit.task_session_id t
         = session_id (Streamlit.hotel_agent MEMORY_ID REGION)).
Proof.
  unfold Streamlit.dispatched. intros [<-|H].
  - split; [reflexivity|discriminate].
  - apply in_app_or in H. destruct H as [H|[<-|[]]].
    + apply in_map_iff in H. destruct H as [city [<- _]].
      split; [reflexivity|]. intros _. split; reflexivity.
    + split; [reflexivity|discriminate].
Qed.

Lemma sub_agents_share_the_session_witness :
  let t := Streamlit.Task Streamlit.HotelDomain (Some "Pune"%string)
             "flight_user_001" "flight_session_001" "Find hotels in Pune" in
  Streamlit.task_session_id t = Streamlit.SESSION_ID
  /\ (Streamlit.task_domain t = Streamlit.HotelDomain ->
      Streamlit.task_actor_id t
        = actor_id (Streamlit.hotel_agent (L := Ref.libraries) Py.PNone "us-east-1")
      /\ Streamlit.task_session_id t
         = session_id (Streamlit.hotel_agent (L := Ref.libraries) Py.PNone "us-east-1")).
Proof.
  apply (sub_agents_share_the_session (L := Ref.libraries) Py.PNone "us-east-1"
           "delhi to mumbai and pune and back" ["Mumbai"%string; "Pune"%string]).
  simpl. auto.
Defined.

(** ** The activity planner agent *)

Section ActivityFacts.
Import Py Env Activity.
Context {L : Libraries}.

Ltac step H x Hx :=
  match type of H with
  | bind ?m _ = Ok _ =>
      destruct m as [x|] eqn:Hx; [cbn [bind] in H|discriminate H]
  end.

(** What a returned 4-tuple is made of. *)
Lemma agent_returns_inv (mem : pyval) (actor session region : string)
  (W : World) (user_query : string) (limit : Z) (r : activity_result) :
  agent mem actor session region W user_query limit = Ok r ->
  exists source_city duration dest_cities all_activities plan_md,
    search_all W duration limit dest_cities = Ok all_activities
    /\ (let activities_df :=
          match all_activities with
          | [] => pd_DataFrame
          | _ => pd_concat all_activities
          end in
        (if negb (df_empty activities_df) then
           get_daywise_plan_from_claude W activities_df user_query source_city
             dest_cities region
         else Ok NO_ACTIVITIES) = Ok plan_md
        /\ r = ActivityResult EmptyString EmptyString plan_md activities_df).
Proof.
  unfold agent. intros H.
  step H ctx Hc. step H trip_info Ht. step H source_city Hs.
  step H dests Hd. step H duration Hu. step H cities Hi.
  step H dest_cities Ho. step H u Hu'. step H all_activities Ha.
  step H plan_md Hp.
  exists source_city, duration, dest_cities, all_activities, plan_md.
  split; [exact Ha|]. split; [exact Hp|]. now injection H as <-.
Qed.

(** The agent returns when each of its steps does. *)
Lemma agent_returns (mem : pyval) (actor session region : string)
  (W : World) (user_query : string) (limit : Z)
  (context : string) (trip_info source_city dests duration : pyval)
  (cities dest_cities : list pyval) (all_activities : list DataFrame) :
  get_recent_context W mem actor session 5 = Ok context ->
  extract_trip_info_with_claude W user_query region = Ok trip_info ->
  get trip_info "source_city" (PStr EmptyString) = Ok source_city ->
  get trip_info "dest_cities" (PList []) = Ok dests ->
  get trip_info "duration" PNone = Ok duration ->
  iter dests = Ok cities ->
  other_cities source_city cities = Ok dest_cities ->
  create_session W = Ok tt ->
  search_all W duration limit dest_cities = Ok all_activities ->
  let activities_df :=
    match all_activities with
    | [] => pd_DataFrame
    | _ => pd_concat all_activities
    end in
  (df_empty activities_df = false ->
   exists plan, get_daywise_plan_from_claude W activities_df user_query
                  source_city dest_cities region = Ok plan) ->
  exists plan_md,
    agent mem actor session region W user_query limit
      = Ok (ActivityResult EmptyString EmptyString plan_md activities_df).
Proof.
  intros Hc Ht Hs Hd Hu Hi Ho Hn Ha df Hp. unfold agent.
  rewrite Hc. cbn [bind]. rewrite Ht. cbn [bind]. rewrite Hs. cbn [bind].
  rewrite Hd. cbn [bind]. rewrite Hu. cbn [bind]. rewrite Hi. cbn [bind].
  rewrite Ho. cbn [bind]. rewrite Hn. cbn [bind]. rewrite Ha. cbn [bind].
  fold df. destruct (df_empty df) eqn:He; cbn [negb].
  - eexists. reflexivity.
  - destruct (Hp eq_refl) as [plan ->]. eexists. reflexivity.
Qed.

End ActivityFacts.

Section ActivityCharacterisation.
Import Py Env Activity.
Context {L : Libraries}.



End ActivityCharacterisation.




(** With no destination found, the agent returns the fixed text and the
    empty table. *)
Example activity_agent_without_destinations :
  call (Activity.create_activity_planner_agent (L := Ref.libraries) Py.PNone
          "flight_user_001" "flight_session_001" "us-east-1")
    Scenario.good_world "plan something"
  = Py.Ok (Activity.ActivityResult EmptyString EmptyString "No activities found."
             (Ref.Frame [] [])).
Proof. reflexivity. Qed.

(* ================================================================== *)
(** * Further properties of the code *)

(** ** The streaming loop *)

Section MoreStreamFacts.
Import Py Stream.
Context {L : Libraries}.

(** What one line adds to the events and to the pending event, from the
    pending event before it. *)
Lemma trace_around (prev : option string) (pre post : list string) (line : string) :
  let p := prev_event (iter_lines_loop prev pre) in
  trace (iter_lines_loop prev (pre ++ line :: post))
    = trace (iter_lines_loop prev pre)
      ++ fst (fst (loop_body p line))
      ++ trace (iter_lines_loop (snd (fst (loop_body p line))) post)
  /\ prev_event (iter_lines_loop prev (pre ++ line :: post))
    = prev_event (iter_lines_loop (snd (fst (loop_body p line))) post).
Proof.
  intros p. destruct (loop_app prev pre (line :: post)) as [Ht Hp].
  rewrite Ht, Hp. fold p. rewrite loop_step. split; reflexivity.
Qed.

Lemma loop_body_yields_le (prev : option string) (line : string) :
  length (yields (fst (fst (loop_body prev line))))
    <= if startswith "data:" line then 1 else 0.
Proof.
  unfold loop_body.
  destruct (String.eqb (strip line) EmptyString); [simpl; destruct (startswith _ _); lia|].
  destruct (startswith "event:" line); [simpl; destruct (startswith _ _); lia|].
  destruct (startswith "data:" line).
  - destruct (opt_eqb prev "event: message.delta").
    + destruct (json_loads _); simpl; lia.
    + destruct (opt_eqb prev "event: error"); simpl; lia.
  - destruct (startswith "event: done" line); simpl; lia.
Qed.

End MoreStreamFacts.

(** X1.  A blank line (empty, or white space only) anywhere in the stream
    changes nothing: the parser prints and yields what it does without the
    line, and the pending event is what it is without the line. *)
Theorem blank_line_is_skipped {L : Libraries}
  (prev : option string) (pre post : list string) (line : string) :
  Py.strip line = EmptyString ->
  Stream.trace (Stream.iter_lines_loop prev (pre ++ line :: post))
    = Stream.trace (Stream.iter_lines_loop prev (pre ++ post))
  /\ Stream.prev_event (Stream.iter_lines_loop prev (pre ++ line :: post))
    = Stream.prev_event (Stream.iter_lines_loop prev (pre ++ post)).
Proof.
  intros Hb.
  destruct (trace_around prev pre post line) as [Ht Hp].
  destruct (loop_app prev pre post) as [Ht' Hp'].
  assert (forall p, Stream.loop_body p line = ([], p, Stream.Continue)) as Hl.
  { intros p. unfold Stream.loop_body. rewrite Hb. reflexivity. }
  rewrite Ht, Hp, Ht', Hp', Hl. split; reflexivity.
Qed.

Lemma blank_line_is_skipped_witness :
  Stream.trace
    (Stream.iter_lines_loop (L := Ref.libraries) None
       ([Scenario.delta_line] ++ "   "%string :: [Scenario.hi_line]))
  = Stream.trace
      (Stream.iter_lines_loop (L := Ref.libraries) None
         ([Scenario.delta_line] ++ [Scenario.hi_line])).
Proof.
  apply (blank_line_is_skipped (L := Ref.libraries) None [Scenario.delta_line]
           [Scenario.hi_line] "   "). reflexivity.
Defined.

(** X2.  Under a pending ["event: message.delta"], a line that is ["data:"]
    followed by [rest] is decoded from its seventh character on: what
    [json.loads] gets is [rest] without its first character, whether that
    character is the space of ["data: "] or already the first character of
    the body; the result is yielded, or the error is printed. *)
Theorem data_line_is_decoded_from_the_seventh_character {L : Libraries}
  (rest : string) :
  Stream.loop_body (Some "event: message.delta"%string) ("data:" ++ rest)
    = match json_loads (Py.drop 1 rest) with
      | Py.Ok data =>
          ([Stream.Yield data], Some "event: message.delta"%string, Stream.Continue)
      | Py.Raise e =>
          ([Stream.Print ("JSON decode error: " ++ Py.exn_str e)],
           Some "event: message.delta"%string, Stream.Continue)
      end.
Proof.
  assert (Py.startswith "data:" ("data:" ++ rest) = true) as Hd.
  { unfold Py.startswith. simpl.
    repeat (match goal with |- context [ascii_dec ?a ?a] =>
              destruct (ascii_dec a a); [|congruence] end).
    now destruct rest. }
  destruct (data_line_branch _ Hd) as [Hb He].
  unfold Stream.loop_body. rewrite Hb, He, Hd. reflexivity.
Qed.

(** X3.  The parser yields at most one event per data line: the number of
    events of a stream is at most the number of its lines that start with
    ["data:"], plus one for the dict of a transport failure. *)
Theorem at_most_one_event_per_data_line {L : Libraries}
  (ls : list string) (f : option Py.exn) :
  length (Stream.yields (Stream.stream_response (Stream.Response ls f)))
    <= length (filter (Py.startswith "data:") ls)
       + match f with Some _ => 1 | None => 0 end.
Proof.
  rewrite stream_response_yields, length_app.
  assert (forall prev,
            length (Stream.yields (Stream.trace (Stream.iter_lines_loop prev ls)))
              <= length (filter (Py.startswith "data:") ls)) as H.
  { induction ls as [|line rest IH]; intros prev; [simpl; lia|].
    rewrite loop_step. simpl Stream.trace. rewrite yields_app, length_app.
    pose proof (loop_body_yields_le prev line) as Hl.
    specialize (IH (snd (fst (Stream.loop_body prev line)))).
    simpl filter. destruct (Py.startswith "data:" line); simpl length; lia. }
  specialize (H None). destruct f; simpl; lia.
Qed.

(** X4.  The events come in input order: the events of a stream cut in two
    are the events of the first part followed by the events of the second
    part read from the pending event the first part leaves. *)
Theorem events_follow_input_order {L : Libraries}
  (prev : option string) (a b : list string) :
  Stream.yields (Stream.trace (Stream.iter_lines_loop prev (a ++ b)))
    = Stream.yields (Stream.trace (Stream.iter_lines_loop prev a))
      ++ Stream.yields
           (Stream.trace
              (Stream.iter_lines_loop
                 (Stream.prev_event (Stream.iter_lines_loop prev a)) b)).
Proof.
  destruct (loop_app prev a b) as [Ht _]. now rewrite Ht, yields_app.
Qed.

(** X5.  A data line read while the pending event is not
    ["event: message.delta"] is never decoded and never yielded, and it
    leaves the pending event as it is; so data lines before the first event
    label are dropped. *)
Theorem data_line_needs_a_pending_delta {L : Libraries}
  (prev : option string) (line : string) :
  Py.startswith "data:" line = true ->
  Stream.opt_eqb prev "event: message.delta" = false ->
  Stream.yields (fst (fst (Stream.loop_body prev line))) = []
  /\ snd (fst (Stream.loop_body prev line)) = prev.
Proof.
  intros Hd Hp. destruct (data_line_branch line Hd) as [Hb He].
  unfold Stream.loop_body. rewrite Hb, He, Hd, Hp.
  destruct (Stream.opt_eqb prev "event: error"); split; reflexivity.
Qed.

Lemma data_line_needs_a_pending_delta_witness :
  Stream.yields
    (fst (fst (Stream.loop_body (L := Ref.libraries) None Scenario.hi_line))) = []
  /\ snd (fst (Stream.loop_body (L := Ref.libraries) None Scenario.hi_line)) = None.
Proof.
  apply (data_line_needs_a_pending_delta (L := Ref.libraries) None Scenario.hi_line);
    reflexivity.
Defined.

(** ** The flight and hotel agents *)

Section MoreAgentFacts.
Import Py Env Stream Pipeline Shapes.
Context {L : Libraries}.
Variable stream : World -> string -> list action.
Variable best : World -> DataFrame -> string -> string -> Py.result string.

(** A returned tuple, by the way the agent was left. *)
Lemma agent_returns_cases (W : World) (region query : string) (r : agent_result) :
  agent stream best W region query = Ok r ->
  (exists a, r = partial a)
  \/ (exists a, truthy (sql_code a) = true
        /\ r_sql_code r = sql_code a
        /\ ((r_df r = None /\ r_best_option r = None)
            \/ (exists d, r_df r = Some d /\ df_empty d = true
                  /\ r_best_option r = None)
            \/ (exists d b, r_df r = Some d /\ df_empty d = false
                  /\ r_best_option r = Some b
                  /\ best W d query region = Ok b))).
Proof.
  unfold agent, run_sql_on_snowflake. intros H.
  destruct (drain init (yields (stream W query))) as [[res|a]|e] eqn:Hd;
    cbn [bind] in H; [| |discriminate].
  - injection H as <-. left. apply (drain_inl _ _ _ Hd).
  - destruct (truthy (sql_code a)) eqn:Ht; cbn [negb] in H.
    + right. exists a. split; [exact Ht|].
      destruct (snowflake W (sql_code a)) as [d|e]; cbn [bind try_except] in H.
      * destruct (df_empty d) eqn:He; cbn [negb bind] in H.
        -- injection H as <-. split; [reflexivity|]. right. left.
           exists d. auto.
        -- destruct (best W d query region) as [b|e] eqn:Hb; cbn [bind] in H;
             [|discriminate].
           injection H as <-. split; [reflexivity|]. right. right.
           exists d, b. auto.
      * injection H as <-. split; [reflexivity|]. left. auto.
    + injection H as <-. left. eauto.
Qed.

End MoreAgentFacts.

(** X6.  When the transport fails after text and tool-result payloads, the
    agent returns the text accumulated and the last interpretation
    received, and [None] for the query, the ranked summary and the table:
    a query already received is dropped, and neither the SQL store nor the
    model is called. *)
Theorem transport_failure_keeps_text_and_drops_query {L : Libraries}
  (stream : Env.World -> string -> list Stream.action)
  (best : Env.World -> DataFrame -> string -> string -> Py.result string)
  (W : Env.World) (region query : string)
  (evs : list Wire.stream_event) (e : Py.exn) :
  Stream.yields (stream W query) = map Wire.payload evs ++ [Stream.error_dict e] ->
  Pipeline.agent stream best W region query
    = Py.Ok (Pipeline.AgentResult (Wire.texts evs)
               (Wire.last_value "text" Py.PNone evs) Py.PNone None None).
Proof.
  intros Hy. unfold Pipeline.agent.
  rewrite Hy, drain_app, drain_payloads. reflexivity.
Qed.

Lemma transport_failure_keeps_text_and_drops_query_witness :
  call (Streamlit.hotel_agent (L := Ref.libraries) Py.PNone "us-east-1")
    Scenario.sql_then_broken_world "Find hotels in Pune"
  = Py.Ok (Pipeline.AgentResult "Hi" (Py.PStr "All rows") Py.PNone None None).
Proof.
  apply (transport_failure_keeps_text_and_drops_query (L := Ref.libraries)
           Hotel.cortex_analyst_sql_stream Hotel.get_best_hotel_from_claude
           Scenario.sql_then_broken_world "us-east-1" "Find hotels in Pune"
           [Wire.TextDelta "Hi";
            Wire.ToolResultDelta [(Py.PStr "sql", Py.PStr "SELECT 1");
                                  (Py.PStr "text", Py.PStr "All rows")]]
           Scenario.timeout).
  reflexivity.
Defined.

(** X7.  The consumer stops at the first payload that has the key
    ["error"]: it returns the partial tuple of what was drained before, and
    the payloads after it play no role. *)
Theorem payloads_after_an_error_are_ignored {L : Libraries}
  (a a' : Pipeline.locals) (ds ds' : list Py.pyval) (d : Py.pyval) :
  Pipeline.drain a ds = Py.Ok (inr a') ->
  Py.contains "error" d = Py.Ok true ->
  Pipeline.drain a (ds ++ d :: ds') = Py.Ok (inl (Pipeline.partial a')).
Proof.
  intros Hd He. rewrite drain_app, Hd. simpl.
  unfold Pipeline.on_data. rewrite He. reflexivity.
Qed.

Lemma payloads_after_an_error_are_ignored_witness :
  Pipeline.drain (L := Ref.libraries) Pipeline.init
    ([Wire.payload (Wire.TextDelta "Hi")]
     ++ Py.PDict [(Py.PStr "error", Py.PStr "quota exceeded")]
        :: [Wire.payload (Wire.TextDelta " there")])
  = Py.Ok (inl (Pipeline.partial (Pipeline.Locals "Hi" Py.PNone Py.PNone))).
Proof.
  apply (payloads_after_an_error_are_ignored (L := Ref.libraries));
    reflexivity.
Defined.

(** X8.  When the stream ends without a query (none received, or an empty
    one), the agent returns the partial tuple; the SQL store and the model
    are not called, so what they would do plays no role. *)
Theorem without_a_query_nothing_is_run {L : Libraries}
  (stream : Env.World -> string -> list Stream.action)
  (best : Env.World -> DataFrame -> string -> string -> Py.result string)
  (W : Env.World) (region query : string) (a : Pipeline.locals) :
  Pipeline.drain Pipeline.init (Stream.yields (stream W query)) = Py.Ok (inr a) ->
  Py.truthy (Pipeline.sql_code a) = false ->
  Pipeline.agent stream best W region query = Py.Ok (Pipeline.partial a).
Proof.
  intros Hd Ht. unfold Pipeline.agent. rewrite Hd. simpl. now rewrite Ht.
Qed.

Lemma without_a_query_nothing_is_run_witness :
  call (Streamlit.flight_agent (L := Ref.libraries) Py.PNone "us-east-1")
    Scenario.text_world "flights to Pune"
  = Py.Ok (Pipeline.partial (Pipeline.Locals "Hi" Py.PNone Py.PNone)).
Proof.
  apply (without_a_query_nothing_is_run (L := Ref.libraries)
           Flight.cortex_analyst_sql_stream Flight.get_best_flight_from_claude);
    reflexivity.
Defined.

(** X9.  When the SQL store raises, the agent still returns: the tuple has
    the text, the interpretation and the query, and [None] for the ranked
    summary and the table; the model is not called. *)
Theorem sql_failure_gives_a_null_table {L : Libraries}
  (stream : Env.World -> string -> list Stream.action)
  (best : Env.World -> DataFrame -> string -> string -> Py.result string)
  (W : Env.World) (region query : string) (a : Pipeline.locals) (e : Py.exn) :
  Pipeline.drain Pipeline.init (Stream.yields (stream W query)) = Py.Ok (inr a) ->
  Py.truthy (Pipeline.sql_code a) = true ->
  Env.snowflake W (Pipeline.sql_code a) = Py.Raise e ->
  Pipeline.agent stream best W region query
    = Py.Ok (Pipeline.AgentResult (Pipeline.streamed_text a)
               (Pipeline.interpretation a) (Pipeline.sql_code a) None None).
Proof.
  intros Hd Ht Hs. unfold Pipeline.agent, Pipeline.run_sql_on_snowflake.
  rewrite Hd. simpl. rewrite Ht. simpl. rewrite Hs. reflexivity.
Qed.

Lemma sql_failure_gives_a_null_table_witness :
  call (Streamlit.hotel_agent (L := Ref.libraries) Py.PNone "us-east-1")
    Scenario.no_table_world "Find hotels in Pune"
  = Py.Ok (Pipeline.AgentResult EmptyString (Py.PStr "All rows")
             (Py.PStr "SELECT 1") None None).
Proof.
  apply (sql_failure_gives_a_null_table (L := Ref.libraries)
           Hotel.cortex_analyst_sql_stream Hotel.get_best_hotel_from_claude
           Scenario.no_table_world "us-east-1" "Find hotels in Pune"
           (Pipeline.Locals EmptyString (Py.PStr "All rows") (Py.PStr "SELECT 1"))
           Scenario.sql_error); reflexivity.
Defined.

(** X10.  When the query gives an empty table, the ranking step is not
    run: the agent returns the table with a [None] ranked summary, whatever
    the model endpoint would do. *)
Theorem empty_table_is_not_ranked {L : Libraries}
  (stream : Env.World -> string -> list Stream.action)
  (best : Env.World -> DataFrame -> string -> string -> Py.result string)
  (W : Env.World) (region query : string) (a : Pipeline.locals) (d : DataFrame) :
  Pipeline.drain Pipeline.init (Stream.yields (stream W query)) = Py.Ok (inr a) ->
  Py.truthy (Pipeline.sql_code a) = true ->
  Env.snowflake W (Pipeline.sql_code a) = Py.Ok d ->
  df_empty d = true ->
  Pipeline.agent stream best W region query
    = Py.Ok (Pipeline.AgentResult (Pipeline.streamed_text a)
               (Pipeline.interpretation a) (Pipeline.sql_code a) None (Some d)).
Proof.
  intros Hd Ht Hs He. unfold Pipeline.agent, Pipeline.run_sql_on_snowflake.
  rewrite Hd. simpl. rewrite Ht. simpl. rewrite Hs. simpl. rewrite He.
  reflexivity.
Qed.

Lemma empty_table_is_not_ranked_witness :
  call (Streamlit.hotel_agent (L := Ref.libraries) Py.PNone "us-east-1")
    Scenario.empty_table_world "Find hotels in Pune"
  = Py.Ok (Pipeline.AgentResult EmptyString (Py.PStr "All rows")
             (Py.PStr "SELECT 1") None (Some (Ref.Frame ["A"%string] []))).
Proof.
  apply (empty_table_is_not_ranked (L := Ref.libraries)
           Hotel.cortex_analyst_sql_stream Hotel.get_best_hotel_from_claude
           Scenario.empty_table_world "us-east-1" "Find hotels in Pune"
           (Pipeline.Locals EmptyString (Py.PStr "All rows") (Py.PStr "SELECT 1"))
           (Ref.Frame ["A"%string] [])); reflexivity.
Defined.

(** X11.  Every tuple the agent returns is of one of two kinds: the query,
    the ranked summary and the table are all [None]; or the query is
    present, and a ranked summary is there only together with a non-empty
    table. *)
Theorem returned_tuple_is_partial_or_has_a_query {L : Libraries}
  (stream : Env.World -> string -> list Stream.action)
  (best : Env.World -> DataFrame -> string -> string -> Py.result string)
  (W : Env.World) (region query : string) (r : Pipeline.agent_result) :
  Pipeline.agent stream best W region query = Py.Ok r ->
  Shapes.failure_shape r
  \/ (Py.truthy (Pipeline.r_sql_code r) = true
      /\ forall b, Pipeline.r_best_option r = Some b ->
           exists d, Pipeline.r_df r = Some d /\ df_empty d = false).
Proof.
  intros H. destruct (agent_returns_cases stream best W region query r H)
    as [[a ->]|[a [Ht [Hq Hc]]]].
  - left. apply partial_failure_shape.
  - right. split; [congruence|]. intros b Hb.
    destruct Hc as [[_ Hn]|[[d [_ [_ Hn]]]|[d [b' [Hd [He _]]]]]]; try congruence.
    eauto.
Qed.

Lemma returned_tuple_is_partial_or_has_a_query_witness :
  let r := Pipeline.AgentResult (L := Ref.libraries) EmptyString (Py.PStr "All rows")
             (Py.PStr "SELECT 1") (Some "Best: A"%string) (Some Scenario.one_row) in
  Shapes.failure_shape r
  \/ (Py.truthy (Pipeline.r_sql_code r) = true
      /\ forall b, Pipeline.r_best_option r = Some b ->
           exists d, Pipeline.r_df r = Some d /\ df_empty d = false).
Proof.
  apply (returned_tuple_is_partial_or_has_a_query (L := Ref.libraries)
           Hotel.cortex_analyst_sql_stream Hotel.get_best_hotel_from_claude
           Scenario.good_world "us-east-1" "Find hotels in Pune").
  reflexivity.
Defined.

(** X12.  A payload that is not a JSON object never lets the loop go on:
    for such a payload the consumer raises or returns the partial tuple,
    it does not continue with the next payload. *)
Theorem payload_must_be_an_object {L : Libraries}
  (a a' : Pipeline.locals) (d : Py.pyval) :
  Pipeline.on_data a d = Py.Ok (inr a') -> exists kvs, d = Py.PDict kvs.
Proof.
  unfold Pipeline.on_data. intros H.
  destruct d; try discriminate H; [| | |eauto].
  - simpl in H. destruct (Py.substring_in "error" s); discriminate H.
  - simpl in H. destruct (existsb _ xs); discriminate H.
  - simpl in H. destruct (existsb _ xs); discriminate H.
Qed.

Lemma payload_must_be_an_object_witness :
  exists kvs, Wire.payload (Wire.TextDelta "Hi") = Py.PDict kvs.
Proof.
  apply (payload_must_be_an_object (L := Ref.libraries) Pipeline.init
           (Pipeline.Locals "Hi" Py.PNone Py.PNone)).
  reflexivity.
Defined.

(** ** The text of a model response *)

(** X13.  Of a model response only the first content block is read: when
    the [content] list starts with a block whose [text] is an ASCII string,
    the result is that string without its leading and trailing white space,
    whatever follows. *)
Theorem response_text_is_the_first_block_stripped
  (kvs block : list (Py.pyval * Py.pyval)) (blocks : list Py.pyval) (s : string) :
  Py.lookup "content" kvs = Some (Py.PList (Py.PDict block :: blocks)) ->
  Py.lookup "text" block = Some (Py.PStr s) ->
  Py.is_ascii s = true ->
  Bedrock.response_text (Py.PDict kvs) = Py.Ok (Py.strip s).
Proof.
  intros Hc Ht _. unfold Bedrock.response_text, Py.get, Py.getitem.
  rewrite Hc. cbn [Py.bind Py.truthy Py.getitem0]. now rewrite Ht.
Qed.

Lemma response_text_is_the_first_block_stripped_witness :
  Bedrock.response_text
    (Py.PDict [(Py.PStr "content",
                Py.PList [Py.PDict [(Py.PStr "type", Py.PStr "text");
                                    (Py.PStr "text", Py.PStr "  ['Pune']  ")];
                          Py.PDict [(Py.PStr "text", Py.PStr "ignored")]])])
  = Py.Ok "['Pune']"%string.
Proof.
  apply (response_text_is_the_first_block_stripped
           [(Py.PStr "content",
             Py.PList [Py.PDict [(Py.PStr "type", Py.PStr "text");
                                 (Py.PStr "text", Py.PStr "  ['Pune']  ")];
                       Py.PDict [(Py.PStr "text", Py.PStr "ignored")]])]
           [(Py.PStr "type", Py.PStr "text");
            (Py.PStr "text", Py.PStr "  ['Pune']  ")]
           [Py.PDict [(Py.PStr "text", Py.PStr "ignored")]]
           "  ['Pune']  "); reflexivity.
Defined.

(** X14.  A model response without [content], or with a [content] that
    counts as false (an empty list, [None]), gives the empty text and no
    exception. *)
Theorem response_text_without_content_is_empty (kvs : list (Py.pyval * Py.pyval)) :
  match Py.lookup "content" kvs with
  | Some c => Py.truthy c = false
  | None => True
  end ->
  Bedrock.response_text (Py.PDict kvs) = Py.Ok EmptyString.
Proof.
  intros H. unfold Bedrock.response_text. simpl.
  destruct (Py.lookup "content" kvs) as [c|]; simpl; [now rewrite H|reflexivity].
Qed.

Lemma response_text_without_content_is_empty_witness :
  Bedrock.response_text (Py.PDict [(Py.PStr "content", Py.PList [])])
  = Py.Ok EmptyString.
Proof.
  apply (response_text_without_content_is_empty [(Py.PStr "content", Py.PList [])]).
  reflexivity.
Defined.

(** ** Extraction *)

Lemma map_str_PStr (cs : list string) : map Py.str (map Py.PStr cs) = cs.
Proof. induction cs as [|c cs IH]; simpl; congruence. Qed.

(** X15.  City extraction returns a list of city names as it is: for a
    text read as a list of strings, the result is that list, in order. *)
Theorem cities_round_trip {L : Libraries} (text : string) (cs : list string) :
  literal_eval text = Py.Ok (Py.PList (map Py.PStr cs)) ->
  Hotel.cities_of_text text = Py.Ok cs.
Proof.
  intros H. rewrite cities_of_text_cases, H. now rewrite map_str_PStr.
Qed.

Lemma cities_round_trip_witness :
  Hotel.cities_of_text (L := Ref.libraries) "['Mumbai', 'Pune']"
  = Py.Ok ["Mumbai"%string; "Pune"%string].
Proof.
  apply (cities_round_trip (L := Ref.libraries) "['Mumbai', 'Pune']"
           ["Mumbai"%string; "Pune"%string]). reflexivity.
Defined.

(** X16.  The default of the extraction covers the parse only: when the
    model call raises, city extraction and trip-intent extraction raise the
    same exception, they do not return the default. *)
Theorem extraction_raises_when_the_model_call_raises {L : Libraries}
  (W : Env.World) (user_query region : string) (e : Py.exn) :
  (forall req, Env.invoke_model W req = Py.Raise e) ->
  Hotel.extract_cities_with_claude W user_query region = Py.Raise e
  /\ Activity.extract_trip_info_with_claude W user_query region = Py.Raise e.
Proof.
  intros H. unfold Hotel.extract_cities_with_claude,
    Activity.extract_trip_info_with_claude.
  rewrite !H. split; reflexivity.
Qed.

Lemma extraction_raises_when_the_model_call_raises_witness :
  Hotel.extract_cities_with_claude (L := Ref.libraries) Scenario.text_world
    "delhi to pune" "us-east-1" = Py.Raise Scenario.unavailable
  /\ Activity.extract_trip_info_with_claude (L := Ref.libraries) Scenario.text_world
       "delhi to pune" "us-east-1" = Py.Raise Scenario.unavailable.
Proof.
  apply (extraction_raises_when_the_model_call_raises (L := Ref.libraries)
           Scenario.text_world "delhi to pune" "us-east-1" Scenario.unavailable).
  reflexivity.
Defined.

(** ** The activity planner agent: cities, searches, memory *)

Lemma string_app_assoc (a b c : string) :
  ((a ++ b) ++ c)%string = (a ++ (b ++ c))%string.
Proof. induction a as [|x a IH]; simpl; congruence. Qed.

Lemma string_app_nil_r (a : string) : (a ++ EmptyString)%string = a.
Proof. induction a as [|x a IH]; simpl; congruence. Qed.

(** X17.  For a source city and cities that are ASCII strings, the
    destination list keeps, in order, exactly the cities that differ from
    the source city once both are stripped and lowered: the source city is
    removed however it is capitalised or padded. *)
Theorem source_city_is_removed_from_destinations
  (source_city : string) (cities : list string) :
  Py.is_ascii source_city = true ->
  forallb Py.is_ascii cities = true ->
  Activity.other_cities (Py.PStr source_city) (map Py.PStr cities)
    = Py.Ok (map Py.PStr
               (filter (fun city =>
                          negb (String.eqb (Py.lower (Py.strip city))
                                           (Py.lower (Py.strip source_city))))
                       cities)).
Proof.
  intros _ _. induction cities as [|c cs IH]; [reflexivity|].
  cbn [map Activity.other_cities Py.strip_method Py.bind filter].
  rewrite IH. cbn [Py.bind].
  now destruct (String.eqb (Py.lower (Py.strip c)) (Py.lower (Py.strip source_city))).
Qed.

Lemma source_city_is_removed_from_destinations_witness :
  Activity.other_cities (Py.PStr " delhi ")
    [Py.PStr "Delhi"; Py.PStr "Mumbai"; Py.PStr "DELHI  "; Py.PStr "Pune"]
  = Py.Ok [Py.PStr "Mumbai"; Py.PStr "Pune"].
Proof.
  apply (source_city_is_removed_from_destinations " delhi "
           ["Delhi"; "Mumbai"; "DELHI  "; "Pune"]%string); reflexivity.
Defined.

(** X18.  With no destination the source city is not looked at; with at
    least one destination, the first of them a string, a source city of a
    type without a [strip] method ([None], a boolean, an integer, a list, a
    tuple or a dict) makes the filter raise [AttributeError]. *)
Theorem destinations_need_a_text_source_city
  (source_city : Py.pyval) (city : string) (cities : list Py.pyval) :
  Py.lacks_strip source_city = true ->
  Activity.other_cities source_city [] = Py.Ok []
  /\ exists e,
       Activity.other_cities source_city (Py.PStr city :: cities) = Py.Raise e
       /\ Py.exn_class e = "AttributeError"%string.
Proof.
  intros H. split; [reflexivity|].
  destruct source_city; try discriminate H; eexists; split; reflexivity.
Qed.

Lemma destinations_need_a_text_source_city_witness :
  Activity.other_cities Py.PNone [] = Py.Ok []
  /\ exists e,
       Activity.other_cities Py.PNone
         (Py.PStr "Pune" :: [Py.PStr "Goa"]) = Py.Raise e
       /\ Py.exn_class e = "AttributeError"%string.
Proof.
  apply (destinations_need_a_text_source_city Py.PNone "Pune" [Py.PStr "Goa"]).
  reflexivity.
Defined.

(** X19.  The three conversions of a search response are tried in order
    and the first that gives a table wins: [to_df()] before
    [DataFrame(resp.results)] before [DataFrame(resp)]; there is no table
    exactly when none of the three gives one. *)
Theorem search_response_conversions_in_order {L : Libraries}
  (resp : Env.search_response) :
  (forall d, Env.to_df resp = Some (Py.Ok d) ->
     Activity.frame_of_response resp = Some d)
  /\ (forall d, (forall d', Env.to_df resp <> Some (Py.Ok d')) ->
        Env.results_frame resp = Some (Py.Ok d) ->
        Activity.frame_of_response resp = Some d)
  /\ (Activity.frame_of_response resp = None <->
      (forall d, Env.to_df resp <> Some (Py.Ok d))
      /\ (forall d, Env.results_frame resp <> Some (Py.Ok d))
      /\ (forall d, Env.as_frame resp <> Py.Ok d)).
Proof.
  destruct resp as [t r a]. unfold Activity.frame_of_response. simpl.
  split; [|split].
  - intros d ->. reflexivity.
  - intros d Ht ->. destruct t as [[d'|e]|]; [now destruct (Ht d')| |]; reflexivity.
  - split.
    + intros H. destruct t as [[d|e]|]; [discriminate| |];
        (destruct r as [[d|e']|]; [discriminate| |];
         (destruct a as [d|e'']; [discriminate|]; repeat split; congruence)).
    + intros [Ht [Hr Ha]].
      destruct t as [[d|e]|]; [now destruct (Ht d)| |];
        (destruct r as [[d|e']|]; [now destruct (Hr d)| |];
         (destruct a as [d|e'']; [now destruct (Ha d)|reflexivity])).
Qed.

Lemma search_response_conversions_in_order_witness :
  Activity.frame_of_response (L := Ref.libraries)
    (Env.SearchResponse (L := Ref.libraries) (Some (Py.Raise Scenario.timeout))
       (Some (Py.Ok Scenario.one_row)) (Py.Ok (Ref.Frame [] [])))
  = Some Scenario.one_row.
Proof.
  apply (proj1 (proj2 (search_response_conversions_in_order (L := Ref.libraries)
           (Env.SearchResponse (L := Ref.libraries) (Some (Py.Raise Scenario.timeout))
              (Some (Py.Ok Scenario.one_row)) (Py.Ok (Ref.Frame [] [])))))).
  - intros d'. discriminate.
  - reflexivity.
Defined.

(** X20.  For cities that are strings and a plain duration, the searches
    return exactly when the search of every city returns a response, each
    search being made with the text that names its city and the duration,
    the search columns and the limit.  The tables collected are then, in
    city order and at most one per city, for each city whose response
    converts to a non-empty table that table with its [CITY] column set to
    the city; a city whose response converts to no table or to an empty one
    adds nothing. *)
Theorem found_tables_are_non_empty_and_tagged {L : Libraries}
  (W : Env.World) (duration : Py.pyval) (limit : Z) (cities : list string)
  (frames : list DataFrame) :
  Py.plain duration = true ->
  Activity.search_all W duration limit (map Py.PStr cities) = Py.Ok frames
  <->
  exists found : list (option DataFrame),
    Forall2 (fun (city : string) (o : option DataFrame) =>
               exists resp,
                 Env.search W
                   ("Find activities and experiences for a traveler in " ++ city
                    ++ ". Trip duration: " ++ Py.str duration ++ " days.")%string
                   Activity.CORTEX_SEARCH_COLUMNS limit = Py.Ok resp
                 /\ o = match Activity.frame_of_response resp with
                        | Some df0 =>
                            if df_empty df0 then None
                            else Some (df_setitem df0 "CITY" city)
                        | None => None
                        end)
            cities found
    /\ frames = flat_map (fun o => match o with Some df => [df] | None => [] end)
                  found.
Proof.
  intros _. split.
  - revert frames. induction cities as [|city rest IH]; intros frames H.
    + injection H as <-. exists []. split; [constructor|reflexivity].
    + cbn [map Activity.search_all] in H.
      destruct (Activity.search_city W duration limit (Py.PStr city)) as [o|e] eqn:Hc;
        cbn [Py.bind] in H; [|discriminate].
      destruct (Activity.search_all W duration limit (map Py.PStr rest))
        as [rest'|e] eqn:Hr; cbn [Py.bind] in H; [|discriminate].
      injection H as <-. destruct (IH rest' eq_refl) as [found [HF ->]].
      unfold Activity.search_city in Hc. cbn [Py.str] in Hc.
      destruct (Env.search W _ _ _) as [resp|e] eqn:Hs; cbn [Py.bind] in Hc;
        [|discriminate].
      exists (o :: found). split.
      * constructor; [|exact HF]. exists resp. split; [exact Hs|].
        destruct (Activity.frame_of_response resp) as [df0|];
          [destruct (df_empty df0); cbn [negb] in Hc|]; now injection Hc.
      * cbn [flat_map]. now destruct o.
  - intros [found [HF ->]]. induction HF as [|city o rest found [resp [Hs ->]] HF IH].
    + reflexivity.
    + cbn [map Activity.search_all]. rewrite IH. unfold Activity.search_city.
      cbn [Py.str]. rewrite Hs. cbn [Py.bind flat_map].
      destruct (Activity.frame_of_response resp) as [df0|];
        [destruct (df_empty df0)|]; reflexivity.
Qed.

Lemma found_tables_are_non_empty_and_tagged_witness :
  exists found : list (option (DataFrame (Libraries := Ref.libraries))),
    Forall2 (fun (city : string) (o : option DataFrame) =>
               exists resp,
                 Env.search Scenario.activity_world
                   ("Find activities and experiences for a traveler in " ++ city
                    ++ ". Trip duration: " ++ Py.str (Py.PInt 5) ++ " days.")%string
                   Activity.CORTEX_SEARCH_COLUMNS 10 = Py.Ok resp
                 /\ o = match Activity.frame_of_response resp with
                        | Some df0 =>
                            if df_empty df0 then None
                            else Some (df_setitem df0 "CITY" city)
                        | None => None
                        end)
            ["Mumbai"; "Pune"]%string found
    /\ [Ref.Frame ["A"%string; "CITY"%string] [[Py.PInt 1; Py.PStr "Mumbai"]];
        Ref.Frame ["A"%string; "CITY"%string] [[Py.PInt 1; Py.PStr "Pune"]]]
       = flat_map (fun o => match o with Some df => [df] | None => [] end) found.
Proof.
  assert (Py.plain (Py.PInt 5) = true) as Hplain by (vm_compute; reflexivity).
  apply (proj1 (found_tables_are_non_empty_and_tagged (L := Ref.libraries)
                  Scenario.activity_world (Py.PInt 5) 10
                  ["Mumbai"; "Pune"]%string _ Hplain)).
  reflexivity.
Defined.

(** X21.  The agent reads the memory first, with its own memory id, actor
    id and session id and [k = 5]; when that read raises, the agent raises
    the same exception, although the context read is not used
    afterwards. *)
Theorem memory_failure_fails_the_activity_agent {L : Libraries}
  (actor session region : string) (mem : Py.pyval)
  (W : Env.World) (user_query : string) (limit : Z) (e : Py.exn) :
  Env.get_last_k_turns W mem actor session 5 = Py.Raise e ->
  Activity.agent mem actor session region W user_query limit = Py.Raise e.
Proof.
  intros H. unfold Activity.agent, Activity.get_recent_context.
  now rewrite H.
Qed.

Lemma memory_failure_fails_the_activity_agent_witness :
  Activity.agent (L := Ref.libraries) Py.PNone "flight_user_001"
    "flight_session_001" "us-east-1"
    (Scenario.with_memory (Py.Raise Scenario.memory_down))
    "delhi to mumbai and pune" 10
  = Py.Raise Scenario.memory_down.
Proof.
  apply (memory_failure_fails_the_activity_agent (L := Ref.libraries)
           "flight_user_001" "flight_session_001" "us-east-1" Py.PNone).
  reflexivity.
Defined.

Section ContextFacts.
Import Py Turns.
Context {L : Libraries}.

Lemma context_of_app (a b : list (string * string)) :
  context_of (a ++ b) = (context_of a ++ context_of b)%string.
Proof.
  induction a as [|m a IH]; [reflexivity|].
  simpl. now rewrite IH, string_app_assoc.
Qed.

Lemma fold_messages (acc : string) (ms : list (string * string)) :
  Activity.foldM_str
    (fun context message =>
       role <- getitem message "role" ;;
       c <- getitem message "content" ;;
       content <- getitem c "text" ;;
       r <- title_method role ;;
       Ok (context ++ (r ++ ": " ++ str content ++ nl))%string)
    acc (map (fun m => message (fst m) (snd m)) ms)
  = Ok (acc ++ context_of ms)%string.
Proof.
  revert acc. induction ms as [|m ms IH]; intros acc.
  - simpl. now rewrite string_app_nil_r.
  - cbn [map Activity.foldM_str]. destruct m as [role text].
    cbn [fst snd message getitem lookup eq_str String.eqb Ascii.eqb Bool.eqb
         bind title_method str context_of context_line].
    rewrite IH. now rewrite string_app_assoc.
Qed.

Lemma fold_turns (acc : string) (ts : list (list (string * string))) :
  Activity.foldM_str
    (fun context turn =>
       messages <- iter turn ;;
       Activity.foldM_str
         (fun context message =>
            role <- getitem message "role" ;;
            c <- getitem message "content" ;;
            content <- getitem c "text" ;;
            r <- title_method role ;;
            Ok (context ++ (r ++ ": " ++ str content ++ nl))%string)
         context messages)
    acc (map turn ts)
  = Ok (acc ++ context_of (concat ts))%string.
Proof.
  revert acc. induction ts as [|t ts IH]; intros acc.
  - simpl. now rewrite string_app_nil_r.
  - cbn [map Activity.foldM_str turn iter bind concat].
    rewrite fold_messages. cbn [bind]. rewrite IH.
    now rewrite context_of_app, string_app_assoc.
Qed.

End ContextFacts.

(** X22.  For a history of turns, each a list of messages with a role and
    a text, the context is one line per message, in order: the role in
    title case, a colon and a space, the text, a line feed; an empty
    history gives the empty context. *)
Theorem recent_context_is_one_line_per_message {L : Libraries}
  (W : Env.World) (mem : Py.pyval) (actor session : string) (k : Z)
  (ts : list (list (string * string))) :
  Env.get_last_k_turns W mem actor session k = Py.Ok (Turns.turns ts) ->
  Activity.get_recent_context W mem actor session k
    = Py.Ok (Turns.context_of (concat ts)).
Proof.
  intros H. unfold Activity.get_recent_context. rewrite H.
  cbn [Py.bind Turns.turns Py.iter].
  apply (fold_turns EmptyString).
Qed.

Lemma recent_context_is_one_line_per_message_witness :
  Activity.get_recent_context (L := Ref.libraries)
    (Scenario.with_memory (Py.Ok (Turns.turns Scenario.one_turn)))
    Py.PNone "flight_user_001" "flight_session_001" 5
  = Py.Ok ("User: delhi to pune" ++ Py.nl
           ++ "Assistant: Here are the flights." ++ Py.nl)%string.
Proof.
  apply (recent_context_is_one_line_per_message (L := Ref.libraries)
           (Scenario.with_memory (Py.Ok (Turns.turns Scenario.one_turn)))
           Py.PNone "flight_user_001" "flight_session_001" 5 Scenario.one_turn).
  reflexivity.
Defined.

(** X23.  When the extraction falls back to its default (no destination),
    and the empty table of the library is empty, the agent searches
    nothing and asks for no plan: it returns ["No activities found."] and
    the empty table, whatever the search service and the model would
    do. *)
Theorem default_trip_gives_no_activities {L : Libraries}
  (mem : Py.pyval) (actor session region : string)
  (W : Env.World) (user_query : string) (limit : Z) (context : string) :
  Activity.get_recent_context W mem actor session 5 = Py.Ok context ->
  Activity.extract_trip_info_with_claude W user_query region
    = Py.Ok Activity.default_trip_info ->
  Env.create_session W = Py.Ok tt ->
  df_empty pd_DataFrame = true ->
  Activity.agent mem actor session region W user_query limit
    = Py.Ok (Activity.ActivityResult EmptyString EmptyString
               "No activities found." pd_DataFrame).
Proof.
  intros Hc Ht Hs He. unfold Activity.agent.
  rewrite Hc. cbn [Py.bind]. rewrite Ht. cbn [Py.bind].
  cbn. rewrite Hs. cbn. rewrite He. reflexivity.
Qed.

Lemma default_trip_gives_no_activities_witness :
  Activity.agent (L := Ref.libraries) Py.PNone "flight_user_001"
    "flight_session_001" "us-east-1" Scenario.good_world "plan something" 10
  = Py.Ok (Activity.ActivityResult EmptyString EmptyString
             "No activities found." (Ref.Frame [] [])).
Proof.
  apply (default_trip_gives_no_activities (L := Ref.libraries) Py.PNone
           "flight_user_001" "flight_session_001" "us-east-1" Scenario.good_world
           "plan something" 10 EmptyString); reflexivity.
Defined.

(** ** The orchestrator *)

Section MainFacts.
Import Py Pipeline.
Context {L : Libraries}.

Lemma collect_hotels (task : nat * string -> Py.result agent_result)
  (j : nat) (cities : list string) (hotels : list (string * agent_result)) :
  mapM (fun cf : string * Py.result agent_result => r <- snd cf ;; Ok (fst cf, r))
       (combine cities (map task (Streamlit.number j cities))) = Ok hotels ->
  map fst hotels = cities
  /\ map task (Streamlit.number j cities) = map (fun h => Ok (snd h)) hotels.
Proof.
  revert j hotels. induction cities as [|c cs IH]; intros j hotels H.
  - injection H as <-. split; reflexivity.
  - cbn [Streamlit.number map combine mapM fst snd] in H.
    destruct (task (j, c)) as [r|e] eqn:Ht; cbn [bind] in H; [|discriminate].
    destruct (mapM _ (combine cs (map task (Streamlit.number (S j) cs))))
      as [hs|e] eqn:Hm; cbn [bind] in H; [|discriminate].
    injection H as <-. destruct (IH (S j) hs Hm) as [Hf Hs].
    cbn [Streamlit.number map fst snd]. rewrite Hf, Ht, Hs. split; reflexivity.
Qed.

End MainFacts.

(** X25.  When [main] has all its results, the cities were extracted by
    the main thread, and the hotel results are one per city, in city
    order, each labelled with its city and equal to what the hotel task of
    that slot returned. *)
Theorem hotel_results_follow_the_cities {L : Libraries}
  (MEMORY_ID : Py.pyval) (REGION : string) (Ws : Streamlit.Worlds)
  (travel_query : string) (agg : Streamlit.aggregate) :
  Streamlit.main MEMORY_ID REGION Ws travel_query = Py.Ok agg ->
  exists cities,
    Hotel.extract_cities_with_claude (Streamlit.main_world Ws) travel_query REGION
      = Py.Ok cities
    /\ map fst (Streamlit.hotel_results agg) = cities
    /\ map (Streamlit.hotel_task MEMORY_ID REGION Ws) (Streamlit.number 0 cities)
       = map (fun h => Py.Ok (snd h)) (Streamlit.hotel_results agg).
Proof.
  unfold Streamlit.main. intros H.
  destruct (Hotel.extract_cities_with_claude _ _ _) as [cities|e];
    cbn [Py.bind] in H; [|discriminate].
  exists cities. split; [reflexivity|].
  destruct (call (Streamlit.flight_agent MEMORY_ID REGION) _ _) as [fr|e];
    cbn [Py.bind] in H; [|discriminate].
  destruct (Py.mapM _ _) as [hotels|e] eqn:Hm; cbn [Py.bind] in H; [|discriminate].
  destruct (call (Streamlit.activity_agent MEMORY_ID REGION) _ _) as [ar|e];
    cbn [Py.bind] in H; [|discriminate].
  injection H as <-. cbn [Streamlit.hotel_results].
  exact (collect_hotels _ 0 cities hotels Hm).
Qed.

Lemma hotel_results_follow_the_cities_witness :
  exists agg cities,
    Streamlit.main (L := Ref.libraries) Py.PNone "us-east-1" Scenario.all_return
      "delhi to mumbai and pune and back" = Py.Ok agg
    /\ Hotel.extract_cities_with_claude (L := Ref.libraries)
         (Streamlit.main_world Scenario.all_return)
         "delhi to mumbai and pune and back" "us-east-1" = Py.Ok cities
    /\ map fst (Streamlit.hotel_results agg) = cities
    /\ cities = ["Mumbai"%string; "Pune"%string].
Proof.
  eexists. 
  assert (Streamlit.main (L := Ref.libraries) Py.PNone "us-east-1" Scenario.all_return
            "delhi to mumbai and pune and back" = Py.Ok _) as H by reflexivity.
  destruct (hotel_results_follow_the_cities (L := Ref.libraries) Py.PNone "us-east-1"
              Scenario.all_return "delhi to mumbai and pune and back" _ H)
    as [cities [Hc [Hf _]]].
  exists cities. split; [exact H|]. split; [exact Hc|]. split; [exact Hf|].
  vm_compute in Hc. now injection Hc.
Defined.

(** X26.  The join does not isolate the tasks: on a request that is not
    the empty text, when the cities are extracted and the flight task
    raises, [main] raises the same exception at the flight future's
    [result()], whatever the hotel and activity tasks returned. *)
Theorem main_raises_when_the_flight_task_raises {L : Libraries}
  (MEMORY_ID : Py.pyval) (REGION : string) (Ws : Streamlit.Worlds)
  (travel_query : string) (cities : list string) (e : Py.exn) :
  travel_query <> EmptyString ->
  Hotel.extract_cities_with_claude (Streamlit.main_world Ws) travel_query REGION
    = Py.Ok cities ->
  call (Streamlit.flight_agent MEMORY_ID REGION) (Streamlit.flight_world Ws)
    travel_query = Py.Raise e ->
  Streamlit.main MEMORY_ID REGION Ws travel_query = Py.Raise e.
Proof.
  intros _ Hc Hf. unfold Streamlit.main. rewrite Hc. cbn [Py.bind].
  rewrite Hf. reflexivity.
Qed.

Lemma main_raises_when_the_flight_task_raises_witness :
  Streamlit.main (L := Ref.libraries) Py.PNone "us-east-1" Scenario.flight_raises
    "delhi to mumbai and pune and back" = Py.Raise Scenario.unavailable.
Proof.
  apply (main_raises_when_the_flight_task_raises (L := Ref.libraries) Py.PNone
           "us-east-1" Scenario.flight_raises "delhi to mumbai and pune and back"
           ["Mumbai"%string; "Pune"%string] Scenario.unavailable);
    [discriminate|reflexivity|reflexivity].
Defined.

(** ** What the page shows *)

Section RenderFacts.
Import Py Pipeline Ui.
Context {L : Libraries}.

(** The notices among the widgets of a 5-tuple are those of its last
    [if]/[elif] chain. *)
Lemma render_booking_notices (h a s : string) (r : agent_result) :
  filter is_notice (render_booking h a s r) =
    if truthy (r_sql_code r) then []
    else match r_df r with
         | Some _ => [Info NO_RESULTS]
         | None =>
             match r_sql_code r with
             | PNone => [Error SQL_ERROR]
             | _ => []
             end
         end.
Proof.
  unfold render_booking. rewrite !filter_app.
  destruct (negb (String.eqb (r_streamed_text r) EmptyString));
    destruct (truthy (r_interpretation r));
    (destruct (r_best_option r) as [b|];
       [destruct (negb (String.eqb b EmptyString))|]);
    (destruct (r_df r) as [d|]; [destruct (negb (df_empty d))|]);
    destruct (truthy (r_sql_code r)); cbn [filter is_notice app];
    try reflexivity; destruct (r_sql_code r); reflexivity.
Qed.

Lemma in_notices (w : widget) (ws : list widget) :
  is_notice w = true -> (In w ws <-> In w (filter is_notice ws)).
Proof.
  intros H. rewrite filter_In. tauto.
Qed.

End RenderFacts.

(** X27.  For every tuple an agent returns, the page never shows
    ["No results found."], and it shows ["Error running SQL or generating
    results."] exactly when the tuple has the failure shape; so an empty
    result table is shown with its SQL and no notice. *)
Theorem returned_tuple_is_never_rendered_as_no_results {L : Libraries}
  (stream : Env.World -> string -> list Stream.action)
  (best : Env.World -> DataFrame -> string -> string -> Py.result string)
  (W : Env.World) (region query : string) (r : Pipeline.agent_result)
  (best_heading all_label sql_label : string) :
  Pipeline.agent stream best W region query = Py.Ok r ->
  ~ In (Ui.Info Ui.NO_RESULTS)
       (Ui.render_booking best_heading all_label sql_label r)
  /\ (In (Ui.Error Ui.SQL_ERROR)
         (Ui.render_booking best_heading all_label sql_label r)
      <-> Shapes.failure_shape r).
Proof.
  intros H.
  rewrite (in_notices (Ui.Info Ui.NO_RESULTS) _ eq_refl),
          (in_notices (Ui.Error Ui.SQL_ERROR) _ eq_refl),
          render_booking_notices.
  destruct (agent_returns_cases stream best W region query r H)
    as [[a ->]|[a [Ht [Hq Hc]]]].
  - simpl. split; [intros [Hi|[]]; discriminate Hi|].
    split; [intros _; apply partial_failure_shape|auto].
  - rewrite Hq, Ht. simpl. split; [tauto|]. split; [tauto|].
    intros [Hs _]. rewrite Hq in Hs. rewrite Hs in Ht. discriminate Ht.
Qed.

Lemma returned_tuple_is_never_rendered_as_no_results_witness :
  let r := Pipeline.AgentResult (L := Ref.libraries) EmptyString (Py.PStr "All rows")
             (Py.PStr "SELECT 1") None (Some (Ref.Frame ["A"%string] [])) in
  ~ In (Ui.Info Ui.NO_RESULTS) (Ui.render_flight r)
  /\ (In (Ui.Error Ui.SQL_ERROR) (Ui.render_flight r) <-> Shapes.failure_shape r).
Proof.
  apply (returned_tuple_is_never_rendered_as_no_results (L := Ref.libraries)
           Flight.cortex_analyst_sql_stream Flight.get_best_flight_from_claude
           Scenario.empty_table_world "us-east-1" "flights to Pune").
  reflexivity.
Defined.

(** X28.  When the activity agent returns an empty table, the page shows
    ["No activities found."] twice: once as the plan text and once as the
    notice of the empty table. *)
Theorem no_activities_is_shown_twice {L : Libraries}
  (mem : Py.pyval) (actor session region : string)
  (W : Env.World) (user_query : string) (limit : Z)
  (r : Activity.activity_result) :
  Activity.agent mem actor session region W user_query limit = Py.Ok r ->
  df_empty (Activity.a_activities_df r) = true ->
  Ui.render_activity r
    = [Ui.Markdown "No activities found."; Ui.Info "No activities found."].
Proof.
  intros H He.
  destruct (agent_returns_inv _ _ _ _ _ _ _ _ H)
    as [src [dur [dests [frames [plan [_ [Hp ->]]]]]]].
  cbn [Activity.a_activities_df] in He.
  unfold Ui.render_activity. cbn [Activity.a_activities_df Activity.a_plan_md].
  rewrite He in *. cbn [negb] in *. now injection Hp as <-.
Qed.

Lemma no_activities_is_shown_twice_witness :
  Ui.render_activity (L := Ref.libraries)
    (Activity.ActivityResult EmptyString EmptyString "No activities found."
       (Ref.Frame [] []))
  = [Ui.Markdown "No activities found."; Ui.Info "No activities found."].
Proof.
  apply (no_activities_is_shown_twice (L := Ref.libraries) Py.PNone
           "flight_user_001" "flight_session_001" "us-east-1" Scenario.good_world
           "plan something" 10); reflexivity.
Defined.

(** ** The call without streaming *)

Section FlightSqlFacts.
Import Py FlightSql.

Lemma fold_items (a : found) (evs : list Wire.stream_event) :
  foldM on_item a (map Wire.content_item evs) = Ok (last_json a evs).
Proof.
  revert a. induction evs as [|ev evs IH]; intros a; [reflexivity|].
  cbn [map foldM]. destruct ev as [t|kvs].
  - cbn. apply IH.
  - unfold on_item, Wire.content_item. cbn.
    destruct (lookup "sql" kvs), (lookup "text" kvs); cbn; apply IH.
Qed.

End FlightSqlFacts.

(** X29.  [cortex_analyst_sql] never raises.  When the request raises it
    returns [None] and the text ["Cortex Analyst exception: "] followed by
    the exception; when the status is not 200 it returns [None] and
    ["Cortex Analyst error: "] followed by the status code and the body
    text, without decoding the body. *)
Theorem cortex_analyst_sql_reports_failures_as_text
  (post : Stream.request -> Py.result FlightSql.http_response) (query : string) :
  (exists r, FlightSql.cortex_analyst_sql post query = Py.Ok r)
  /\ (forall e,
        post (Stream.Request "Generate SQL for flight booking queries."
                Flight.SEMANTIC_MODELS query) = Py.Raise e ->
        FlightSql.cortex_analyst_sql post query
          = Py.Ok (Py.PNone, Py.PStr ("Cortex Analyst exception: " ++ Py.exn_str e)))
  /\ (forall resp,
        post (Stream.Request "Generate SQL for flight booking queries."
                Flight.SEMANTIC_MODELS query) = Py.Ok resp ->
        FlightSql.status_code resp <> 200%Z ->
        FlightSql.cortex_analyst_sql post query
          = Py.Ok (Py.PNone,
                   Py.PStr ("Cortex Analyst error: "
                            ++ Py.str_of_Z (FlightSql.status_code resp)
                            ++ " " ++ FlightSql.text resp))).
Proof.
  unfold FlightSql.cortex_analyst_sql. split; [|split].
  - destruct (Py.bind _ _); simpl; eauto.
  - intros e ->. reflexivity.
  - intros resp -> Hs. cbn [Py.bind].
    destruct (Z.eqb_spec (FlightSql.status_code resp) 200); [contradiction|].
    reflexivity.
Qed.

Lemma cortex_analyst_sql_reports_failures_as_text_witness :
  FlightSql.cortex_analyst_sql (fun _ => Py.Ok FlightSql.forbidden) "flights to Pune"
  = Py.Ok (Py.PNone, Py.PStr "Cortex Analyst error: 403 Forbidden").
Proof.
  apply (proj2 (proj2 (cortex_analyst_sql_reports_failures_as_text
           (fun _ => Py.Ok FlightSql.forbidden) "flights to Pune")) FlightSql.forbidden).
  - reflexivity.
  - discriminate.
Defined.

(** X30.  On a 200 answer whose body has tool results under
    [delta.content], [cortex_analyst_sql] returns the [sql] and the [text]
    of the last tool result, and [None] for one that result does not have:
    unlike the streaming loop, a later tool result without [sql] erases a
    query found earlier. *)
Theorem cortex_analyst_sql_returns_the_last_tool_result
  (post : Stream.request -> Py.result FlightSql.http_response) (query : string)
  (body_text : string) (evs : list Wire.stream_event) :
  post (Stream.Request "Generate SQL for flight booking queries."
          Flight.SEMANTIC_MODELS query)
    = Py.Ok (FlightSql.HttpResponse 200 body_text (Py.Ok (FlightSql.body evs))) ->
  FlightSql.cortex_analyst_sql post query
    = Py.Ok (FlightSql.last_json (Py.PNone, Py.PNone) evs).
Proof.
  intros H. unfold FlightSql.cortex_analyst_sql. rewrite H.
  cbn [Py.bind FlightSql.status_code FlightSql.json Z.eqb Pos.eqb negb].
  unfold FlightSql.content_of, FlightSql.body. cbn.
  rewrite fold_items. reflexivity.
Qed.

Lemma cortex_analyst_sql_returns_the_last_tool_result_witness :
  FlightSql.cortex_analyst_sql
    (fun _ =>
       Py.Ok (FlightSql.HttpResponse 200 "{...}"
                (Py.Ok (FlightSql.body
                          [Wire.ToolResultDelta
                             [(Py.PStr "sql", Py.PStr "SELECT 1");
                              (Py.PStr "text", Py.PStr "All rows")];
                           Wire.ToolResultDelta
                             [(Py.PStr "text", Py.PStr "Sorry")]]))))
    "flights to Pune"
  = Py.Ok (Py.PNone, Py.PStr "Sorry").
Proof.
  apply (cortex_analyst_sql_returns_the_last_tool_result
           (fun _ =>
              Py.Ok (FlightSql.HttpResponse 200 "{...}"
                       (Py.Ok (FlightSql.body
                                 [Wire.ToolResultDelta
                                    [(Py.PStr "sql", Py.PStr "SELECT 1");
                                     (Py.PStr "text", Py.PStr "All rows")];
                                  Wire.ToolResultDelta
                                    [(Py.PStr "text", Py.PStr "Sorry")]]))))
           "flights to Pune" "{...}"
           [Wire.ToolResultDelta
              [(Py.PStr "sql", Py.PStr "SELECT 1");
               (Py.PStr "text", Py.PStr "All rows")];
            Wire.ToolResultDelta [(Py.PStr "text", Py.PStr "Sorry")]]).
  reflexivity.
Defined.
